(** * fsl-lwc-components: a shallow embedding of the Lightning web components

    The repository holds five independent components for a field-service
    application.  Each one is embedded below in a module named after its
    JavaScript class:

    - [BuildingAssetMap]      (digital-twin map, threshold classifier, dataset)
    - [PredictiveMaintenance] (asset health dashboard)
    - [SaStatusUpdate]        (service appointment status workflow)
    - [CpeProvisioning]       (four-step provisioning wizard)
    - [OrderProgressMobile]   (orchestration journey viewer)

    JavaScript numbers are IEEE-754 doubles and are embedded as Rocq's
    primitive floats, so [<] and [>] are the comparisons the engine performs
    (false on NaN).  Handlers that call the platform are written in a small
    state-and-exception monad that also records the events a handler
    dispatches; asynchronous handlers that sleep on timers are embedded as
    scripts run by a model of the timer queue. *)

From Stdlib Require Import ZArith List String Floats Lia Bool.
From stdpp Require Import base strings pretty gmap list.

Set Warnings "-inexact-float".
Local Open Scope string_scope.
Local Open Scope list_scope.

(** ** JavaScript and platform primitives shared by the components *)

Module Js.

(** The error object of a rejected remote call; handlers only ever read
    [error.body?.message]. *)
Record JsError := { body_message : option string }.

(** What a remote call settles to. *)
Inductive Outcome (A : Type) :=
| Resolved (a : A)
| Rejected (e : JsError).
Arguments Resolved {A} a.
Arguments Rejected {A} e.

(** What a handler makes observable outside the component. *)
Inductive Event :=
| ShowToastEvent (title message variant : string)
| CloseActionScreenEvent
| ConsoleError (label : string)
| RemoteCall (method : string).

Inductive Result (A : Type) :=
| Ok (a : A)
| Throw (e : JsError).
Arguments Ok {A} a.
Arguments Throw {A} e.

(** [x || d] on an optional string: [undefined], [null] and the empty
    string are falsy. *)
Definition or_default (x : option string) (d : string) : string :=
  match x with
  | Some s => if String.eqb s "" then d else s
  | None => d
  end.

(** Truthiness of an optional string, keeping the value when truthy. *)
Definition truthy (x : option string) : option string :=
  match x with
  | Some s => if String.eqb s "" then None else Some s
  | None => None
  end.

(** [!x] on an optional string. *)
Definition falsy (x : option string) : bool :=
  match truthy x with
  | Some _ => false
  | None => true
  end.

(** [error.body?.message || fallback] *)
Definition error_message (e : JsError) (fallback : string) : string :=
  or_default (body_message e) fallback.

(** [a < b] and [a > b] on numbers: IEEE comparisons, false when either
    side is NaN. *)
Definition lt (a b : float) : bool := PrimFloat.ltb a b.
Definition gt (a b : float) : bool := PrimFloat.ltb b a.

(** [Math.min] and [Math.max] on two numbers: NaN is contagious and
    [-0] is below [+0]. *)
Definition Math_min (a b : float) : float :=
  if (PrimFloat.is_nan a || PrimFloat.is_nan b)%bool then PrimFloat.nan
  else if PrimFloat.ltb a b then a
  else if PrimFloat.ltb b a then b
  else if PrimFloat.get_sign a then a else b.

Definition Math_max (a b : float) : float :=
  if (PrimFloat.is_nan a || PrimFloat.is_nan b)%bool then PrimFloat.nan
  else if PrimFloat.ltb a b then b
  else if PrimFloat.ltb b a then a
  else if PrimFloat.get_sign a then b else a.

(** *** The handler monad: component state, thrown errors, event trace *)

Section Monad.
Context {S : Type}.

Definition M (A : Type) : Type := S -> Result A * S * list Event.

Definition ret {A} (a : A) : M A := fun s => (Ok a, s, []).

Definition bind {A B} (m : M A) (k : A -> M B) : M B :=
  fun s =>
    match m s with
    | (Ok a, s1, ev1) =>
        match k a s1 with
        | (r, s2, ev2) => (r, s2, ev1 ++ ev2)
        end
    | (Throw e, s1, ev1) => (Throw e, s1, ev1)
    end.

Definition throw {A} (e : JsError) : M A := fun s => (Throw e, s, []).

Definition get : M S := fun s => (Ok s, s, []).

Definition modify (f : S -> S) : M unit := fun s => (Ok tt, f s, []).

Definition emit (e : Event) : M unit := fun s => (Ok tt, s, [e]).

(** [try { body } catch (error) { handler }] *)
Definition try_catch {A} (body : M A) (handler : JsError -> M A) : M A :=
  fun s =>
    match body s with
    | (Ok a, s1, ev1) => (Ok a, s1, ev1)
    | (Throw e, s1, ev1) =>
        match handler e s1 with
        | (r, s2, ev2) => (r, s2, ev1 ++ ev2)
        end
    end.

(** [try { body } finally { cleanup }]: the cleanup always runs; the body's
    completion is kept unless the cleanup itself throws. *)
Definition try_finally {A} (body : M A) (cleanup : M unit) : M A :=
  fun s =>
    match body s with
    | (r, s1, ev1) =>
        match cleanup s1 with
        | (Ok _, s2, ev2) => (r, s2, ev1 ++ ev2)
        | (Throw e, s2, ev2) => (Throw e, s2, ev1 ++ ev2)
        end
    end.

(** [await method(...)] on a platform call whose settlement is [o]:
    the call is issued once, then the handler resumes or the rejection is
    thrown at the await. *)
Definition await {A} (method : string) (o : Outcome A) : M A :=
  bind (emit (RemoteCall method))
       (fun _ => match o with
                 | Resolved a => ret a
                 | Rejected e => throw e
                 end).

Definition dispatchToast (title message variant : string) : M unit :=
  emit (ShowToastEvent title message variant).

End Monad.

Arguments M S A : clear implicits.

(** stdpp's monad notations ([x ← m; k] and [m ;; k]) for handlers. *)
#[global] Instance M_ret {S} : MRet (M S) := fun A a => ret a.
#[global] Instance M_bind {S} : MBind (M S) := fun A B k m => bind m k.

Definition events_of {S A} (r : Result A * S * list Event) : list Event := snd r.
Definition state_of {S A} (r : Result A * S * list Event) : S := snd (fst r).
Definition result_of {S A} (r : Result A * S * list Event) : Result A := fst (fst r).



Definition is_console_error (e : Event) : bool :=
  match e with
  | ConsoleError _ => true
  | _ => false
  end.

Definition is_call (method : string) (e : Event) : bool :=
  match e with
  | RemoteCall m => String.eqb m method
  | _ => false
  end.



(** [x || d] on an optional number: [undefined], [0], [-0] and [NaN] are
    falsy. *)
Definition number_or (x : option float) (d : float) : float :=
  match x with
  | Some v => if (PrimFloat.is_nan v || PrimFloat.eqb v 0)%bool then d else v
  | None => d
  end.

(** [a >= b] on numbers. *)
Definition ge (a b : float) : bool := PrimFloat.leb b a.




End Js.

(** ** Building asset map (digital twin of the Haven data center) *)

Module BuildingAssetMap.

(** One telemetry attribute of an asset, as written in the dataset. *)
Record Attribute := mkAttr {
  name : string;
  value : float;
  minThreshold : float;
  maxThreshold : float;
  unit : string;
  category : string
}.

(** What [processAttribute] returns: the attribute spread, plus the
    classification.  [percentage] is the clamped number; the strings
    formatted from numbers ([toFixed], [gaugeStyle], [displayValue],
    [thresholdDisplay]) feed no decision and are left out. *)
Record ProcessedAttribute := {
  attr : Attribute;
  status : string;
  statusClass : string;
  statusIcon : string;
  percentage : float
}.

Definition processAttribute (a : Attribute) : ProcessedAttribute :=
  let '(status, statusClass, statusIcon) :=
    if Js.lt (value a) (minThreshold a) then
      ("critical", "attr-critical", "utility:error")
    else if Js.gt (value a) (maxThreshold a) then
      ("warning", "attr-warning", "utility:warning")
    else
      ("normal", "attr-normal", "utility:success") in
  let range := PrimFloat.sub (maxThreshold a) (minThreshold a) in
  let percentage :=
    PrimFloat.mul (PrimFloat.div (PrimFloat.sub (value a) (minThreshold a)) range) 100 in
  let percentage := Js.Math_max 0 (Js.Math_min 100 percentage) in
  {| attr := a; status := status; statusClass := statusClass;
     statusIcon := statusIcon; percentage := percentage |}.

(** An asset of the dataset.  Only the fields some code path reads are
    kept; [attributes] is optional because the loader tests for it. *)
Record Asset := {
  id : string;
  asset_name : string;
  type : string;
  asset_status : string;
  room : string;
  rack : string;
  attributes : option (list Attribute)
}.

Record Floor := {
  floor : string;
  floorLabel : string;
  isExpanded : bool;
  assets : list Asset
}.

(** An asset after the [forEach] of the loader has decorated it. *)
Record LoadedAsset := {
  source : Asset;
  asset_statusClass : string;
  processed : option (list ProcessedAttribute);
  warningAttributes : option (list ProcessedAttribute);
  hasWarnings : option bool
}.

Record LoadedFloor := {
  floor_source : Floor;
  loaded_assets : list LoadedAsset
}.

Definition getStatusClass (status : string) : string :=
  if String.eqb status "Active" then "slds-badge slds-theme_success"
  else if String.eqb status "Warning" then "slds-badge slds-theme_warning"
  else if String.eqb status "Inactive" then "slds-badge slds-theme_error"
  else "slds-badge".

Definition is_warning_attribute (a : ProcessedAttribute) : bool :=
  (String.eqb (status a) "warning" || String.eqb (status a) "critical")%bool.

Definition load_asset (a : Asset) : LoadedAsset :=
  match attributes a with
  | Some attrs =>
      let processed := map processAttribute attrs in
      let warnings := List.filter is_warning_attribute processed in
      {| source := a;
         asset_statusClass := getStatusClass (asset_status a);
         processed := Some processed;
         warningAttributes := Some warnings;
         hasWarnings := Some (0 <? length warnings)%nat |}
  | None =>
      {| source := a;
         asset_statusClass := getStatusClass (asset_status a);
         processed := None;
         warningAttributes := None;
         hasWarnings := None |}
  end.

Definition load_floor (f : Floor) : LoadedFloor :=
  {| floor_source := f; loaded_assets := map load_asset (assets f) |}.

(** *** The hardcoded dataset of [loadHavenDataCenterAssets] *)

Definition asset_haven_olt_001 : Asset :=
  {| id := "haven-olt-001"; asset_name := "OLT-A01-001"; type := "Optical Line Terminal";
     asset_status := "Active"; room := "Network Core"; rack := "NC-A01";
     attributes := Some [
       mkAttr "Temperature" 42 10 65 "°C" "Environmental";
       mkAttr "CPU Utilization" 38 0 85 "%" "Performance";
       mkAttr "Memory Usage" 52 0 90 "%" "Performance";
       mkAttr "Optical Power Rx" (-18.5) (-28) (-8) "dBm" "Signal";
       mkAttr "Active PON Ports" 14 1 16 "ports" "Connectivity";
       mkAttr "Uptime" 99.98 99 100 "%" "Availability"] |}.

Definition asset_haven_olt_002 : Asset :=
  {| id := "haven-olt-002"; asset_name := "OLT-A01-002"; type := "Optical Line Terminal";
     asset_status := "Warning"; room := "Network Core"; rack := "NC-A01";
     attributes := Some [
       mkAttr "Temperature" 72 10 65 "°C" "Environmental";
       mkAttr "CPU Utilization" 92 0 85 "%" "Performance";
       mkAttr "Memory Usage" 88 0 90 "%" "Performance";
       mkAttr "Optical Power Rx" (-26.5) (-28) (-8) "dBm" "Signal";
       mkAttr "Active PON Ports" 16 1 16 "ports" "Connectivity";
       mkAttr "Uptime" 98.2 99 100 "%" "Availability"] |}.

Definition asset_sea_002 : Asset :=
  {| id := "sea-002"; asset_name := "CORE-SW-001"; type := "Core Switch";
     asset_status := "Active"; room := "Network Core"; rack := "NC-A01";
     attributes := Some [
       mkAttr "Temperature" 38 10 70 "°C" "Environmental";
       mkAttr "Throughput" 847 0 1000 "Gbps" "Performance";
       mkAttr "Packet Loss" 0.001 0 0.1 "%" "Performance";
       mkAttr "Active Ports" 42 1 48 "ports" "Connectivity";
       mkAttr "Fan Speed" 4200 2000 8000 "RPM" "Environmental";
       mkAttr "Power Draw" 2.8 0 4.5 "kW" "Power"] |}.

Definition asset_sea_003 : Asset :=
  {| id := "sea-003"; asset_name := "EDGE-RTR-001"; type := "Edge Router";
     asset_status := "Active"; room := "Network Core"; rack := "NC-A02";
     attributes := Some [
       mkAttr "Temperature" 45 10 65 "°C" "Environmental";
       mkAttr "BGP Sessions" 28 1 50 "sessions" "Connectivity";
       mkAttr "Route Table Size" 892000 0 1000000 "routes" "Performance";
       mkAttr "CPU Utilization" 24 0 80 "%" "Performance";
       mkAttr "Interface Errors" 0 0 100 "errors/hr" "Health";
       mkAttr "Latency" 1.2 0 10 "ms" "Performance"] |}.

Definition asset_sea_004 : Asset :=
  {| id := "sea-004"; asset_name := "FDP-SEA-001"; type := "Fiber Distribution Panel";
     asset_status := "Active"; room := "MDF Room"; rack := "MDF-01";
     attributes := Some [
       mkAttr "Connected Fibers" 144 1 288 "strands" "Connectivity";
       mkAttr "Avg Insertion Loss" 0.18 0 0.5 "dB" "Signal";
       mkAttr "Temperature" 22 15 35 "°C" "Environmental";
       mkAttr "Humidity" 42 20 60 "%" "Environmental"] |}.

Definition asset_sea_005 : Asset :=
  {| id := "sea-005"; asset_name := "DWDM-SEA-001"; type := "DWDM System";
     asset_status := "Active"; room := "Transport Room A"; rack := "TR-A01";
     attributes := Some [
       mkAttr "Active Wavelengths" 80 1 96 "λ" "Capacity";
       mkAttr "Total Bandwidth" 9.6 0 12 "Tbps" "Performance";
       mkAttr "OSNR" 28 18 40 "dB" "Signal";
       mkAttr "Amplifier Temp" 35 10 50 "°C" "Environmental";
       mkAttr "Laser Bias Current" 42 20 80 "mA" "Health";
       mkAttr "Chromatic Dispersion" 850 0 1500 "ps/nm" "Signal"] |}.

Definition asset_sea_006 : Asset :=
  {| id := "sea-006"; asset_name := "ROADM-SEA-001"; type := "ROADM Node";
     asset_status := "Active"; room := "Transport Room A"; rack := "TR-A02";
     attributes := Some [
       mkAttr "Add/Drop Channels" 16 0 20 "channels" "Capacity";
       mkAttr "Express Channels" 64 0 80 "channels" "Capacity";
       mkAttr "WSS Insertion Loss" 5.2 0 8 "dB" "Signal";
       mkAttr "Power Consumption" 1.8 0 3 "kW" "Power";
       mkAttr "Temperature" 32 10 45 "°C" "Environmental"] |}.

Definition asset_sea_007 : Asset :=
  {| id := "sea-007"; asset_name := "OTN-SW-001"; type := "OTN Switch";
     asset_status := "Warning"; room := "Transport Room B"; rack := "TR-B01";
     attributes := Some [
       mkAttr "Temperature" 68 10 65 "°C" "Environmental";
       mkAttr "Fan Status" 3 4 6 "fans OK" "Health";
       mkAttr "CPU Utilization" 78 0 85 "%" "Performance";
       mkAttr "FEC Corrections" 245 0 100 "errors/min" "Health";
       mkAttr "Active ODU Clients" 42 0 80 "clients" "Capacity";
       mkAttr "Power Draw" 4.2 0 5 "kW" "Power"] |}.

Definition asset_sea_008 : Asset :=
  {| id := "sea-008"; asset_name := "BLADE-SEA-001"; type := "Blade Chassis";
     asset_status := "Active"; room := "Compute Hall A"; rack := "CH-A01";
     attributes := Some [
       mkAttr "Active Blades" 7 1 8 "blades" "Capacity";
       mkAttr "Avg CPU Temp" 58 10 85 "°C" "Environmental";
       mkAttr "Total vCPUs" 448 0 512 "cores" "Capacity";
       mkAttr "Memory Allocated" 2.8 0 4 "TB" "Capacity";
       mkAttr "Network I/O" 185 0 400 "Gbps" "Performance";
       mkAttr "Power Draw" 8.5 0 12 "kW" "Power"] |}.

Definition asset_sea_009 : Asset :=
  {| id := "sea-009"; asset_name := "STORAGE-SEA-001"; type := "Storage Array";
     asset_status := "Active"; room := "Storage Vault"; rack := "SV-01";
     attributes := Some [
       mkAttr "Capacity Used" 72 0 85 "%" "Capacity";
       mkAttr "IOPS" 485000 0 1000000 "ops/s" "Performance";
       mkAttr "Latency" 0.4 0 2 "ms" "Performance";
       mkAttr "Throughput" 18.5 0 25 "GB/s" "Performance";
       mkAttr "Drive Health" 100 90 100 "%" "Health";
       mkAttr "Temperature" 28 15 40 "°C" "Environmental"] |}.

Definition asset_sea_010 : Asset :=
  {| id := "sea-010"; asset_name := "BACKUP-SEA-001"; type := "Backup Appliance";
     asset_status := "Active"; room := "Storage Vault"; rack := "SV-02";
     attributes := Some [
       mkAttr "Backup Success Rate" 99.8 98 100 "%" "Health";
       mkAttr "Dedup Ratio" 4.2 2 10 ":1" "Efficiency";
       mkAttr "Repository Used" 68 0 90 "%" "Capacity";
       mkAttr "Jobs Running" 3 0 12 "jobs" "Performance";
       mkAttr "Last Backup Age" 2.5 0 24 "hours" "Health"] |}.

Definition asset_haven_ups_001 : Asset :=
  {| id := "haven-ups-001"; asset_name := "UPS-A01-001"; type := "UPS System";
     asset_status := "Warning"; room := "Power Room A"; rack := "Floor Mount";
     attributes := Some [
       mkAttr "Load" 62 0 80 "%" "Capacity";
       mkAttr "Battery Health" 68 70 100 "%" "Health";
       mkAttr "Charge Cycles" 847 0 850 "cycles" "Health";
       mkAttr "Input Voltage" 478 456 504 "V" "Power";
       mkAttr "Output Voltage" 480 470 490 "V" "Power";
       mkAttr "Battery Temp" 32 15 35 "°C" "Environmental";
       mkAttr "Runtime Remaining" 12 10 60 "min" "Health"] |}.

Definition asset_sea_012 : Asset :=
  {| id := "sea-012"; asset_name := "PDU-SEA-001"; type := "Power Distribution";
     asset_status := "Active"; room := "Power Room A"; rack := "PDU-01";
     attributes := Some [
       mkAttr "Total Load" 285 0 400 "kW" "Capacity";
       mkAttr "Phase A Current" 198 0 300 "A" "Power";
       mkAttr "Phase B Current" 205 0 300 "A" "Power";
       mkAttr "Phase C Current" 192 0 300 "A" "Power";
       mkAttr "Power Factor" 0.95 0.85 1 "" "Efficiency";
       mkAttr "Breaker Trips" 0 0 1 "events" "Health"] |}.

Definition asset_sea_013 : Asset :=
  {| id := "sea-013"; asset_name := "CRAC-SEA-001"; type := "CRAC Unit";
     asset_status := "Warning"; room := "Cooling Zone A"; rack := "Floor Mount";
     attributes := Some [
       mkAttr "Supply Air Temp" 19 15 22 "°C" "Environmental";
       mkAttr "Return Air Temp" 32 20 30 "°C" "Environmental";
       mkAttr "Humidity" 58 40 55 "%" "Environmental";
       mkAttr "Compressor Status" 1 2 2 "active" "Health";
       mkAttr "Refrigerant Pressure" 285 250 350 "PSI" "Health";
       mkAttr "Airflow" 8500 8000 12000 "CFM" "Performance"] |}.

Definition asset_sea_014 : Asset :=
  {| id := "sea-014"; asset_name := "GEN-SEA-001"; type := "Diesel Generator";
     asset_status := "Active"; room := "Generator Yard"; rack := "Outdoor";
     attributes := Some [
       mkAttr "Fuel Level" 85 25 100 "%" "Capacity";
       mkAttr "Battery Voltage" 26.4 24 28 "V" "Health";
       mkAttr "Coolant Temp" 45 30 95 "°C" "Environmental";
       mkAttr "Oil Pressure" 62 40 80 "PSI" "Health";
       mkAttr "Run Hours" 142 0 500 "hours" "Maintenance";
       mkAttr "Last Test" 3 0 30 "days ago" "Maintenance"] |}.

Definition HAVEN_FLOORS : list Floor :=
  [ {| floor := "1"; floorLabel := "Floor 1 - Network Core"; isExpanded := true;
       assets := [asset_haven_olt_001; asset_haven_olt_002; asset_sea_002; asset_sea_003; asset_sea_004] |};
    {| floor := "2"; floorLabel := "Floor 2 - Transport & DWDM"; isExpanded := false;
       assets := [asset_sea_005; asset_sea_006; asset_sea_007] |};
    {| floor := "3"; floorLabel := "Floor 3 - Compute & Storage"; isExpanded := false;
       assets := [asset_sea_008; asset_sea_009; asset_sea_010] |};
    {| floor := "4"; floorLabel := "Floor 4 - Power & Cooling"; isExpanded := false;
       assets := [asset_haven_ups_001; asset_sea_012; asset_sea_013; asset_sea_014] |} ].

(** *** Component state and handlers *)

Record Component := {
  recordId : option string;
  assetsByFloor : list LoadedFloor;
  selectedAsset : option LoadedAsset;
  showAssetDetail : bool;
  isCreatingWorkPlan : bool;
  workPlanCreated : bool
}.

Definition set_assetsByFloor (v : list LoadedFloor) (c : Component) : Component :=
  {| recordId := recordId c; assetsByFloor := v; selectedAsset := selectedAsset c;
     showAssetDetail := showAssetDetail c; isCreatingWorkPlan := isCreatingWorkPlan c;
     workPlanCreated := workPlanCreated c |}.

Definition set_selectedAsset (v : option LoadedAsset) (c : Component) : Component :=
  {| recordId := recordId c; assetsByFloor := assetsByFloor c; selectedAsset := v;
     showAssetDetail := showAssetDetail c; isCreatingWorkPlan := isCreatingWorkPlan c;
     workPlanCreated := workPlanCreated c |}.

Definition set_showAssetDetail (v : bool) (c : Component) : Component :=
  {| recordId := recordId c; assetsByFloor := assetsByFloor c; selectedAsset := selectedAsset c;
     showAssetDetail := v; isCreatingWorkPlan := isCreatingWorkPlan c;
     workPlanCreated := workPlanCreated c |}.

Definition set_isCreatingWorkPlan (v : bool) (c : Component) : Component :=
  {| recordId := recordId c; assetsByFloor := assetsByFloor c; selectedAsset := selectedAsset c;
     showAssetDetail := showAssetDetail c; isCreatingWorkPlan := v;
     workPlanCreated := workPlanCreated c |}.

Definition set_workPlanCreated (v : bool) (c : Component) : Component :=
  {| recordId := recordId c; assetsByFloor := assetsByFloor c; selectedAsset := selectedAsset c;
     showAssetDetail := showAssetDetail c; isCreatingWorkPlan := isCreatingWorkPlan c;
     workPlanCreated := v |}.

(** The field initialisers of the class, for a component opened on [rid]. *)
Definition initial (rid : option string) : Component :=
  {| recordId := rid; assetsByFloor := []; selectedAsset := None;
     showAssetDetail := false; isCreatingWorkPlan := false; workPlanCreated := false |}.

Definition loadHavenDataCenterAssets (c : Component) : Component :=
  set_assetsByFloor (map load_floor HAVEN_FLOORS) c.

Definition connectedCallback (c : Component) : Component :=
  loadHavenDataCenterAssets c.

(** [floor.assets.find(a => a.id === assetId)], floor after floor. *)
Fixpoint findAssetById_in (floors : list LoadedFloor) (assetId : string) : option LoadedAsset :=
  match floors with
  | [] => None
  | f :: rest =>
      match List.find (fun a => String.eqb (id (source a)) assetId) (loaded_assets f) with
      | Some a => Some a
      | None => findAssetById_in rest assetId
      end
  end.

Definition findAssetById (c : Component) (assetId : string) : option LoadedAsset :=
  findAssetById_in (assetsByFloor c) assetId.

Definition handleAssetClick (assetId : string) (c : Component) : Component :=
  match findAssetById c assetId with
  | Some a => set_showAssetDetail true (set_selectedAsset (Some a) c)
  | None => c
  end.

Definition handleCloseDetail (c : Component) : Component :=
  set_workPlanCreated false (set_selectedAsset None (set_showAssetDetail false c)).

(** The early return of [handleAddInspectionWorkPlan]:
    [!this.selectedAsset || !this.selectedAsset.hasWarnings]. *)
Definition inspection_refused (c : Component) : bool :=
  match selectedAsset c with
  | None => true
  | Some a =>
      match hasWarnings a with
      | Some true => false
      | _ => true
      end
  end.

Definition recordId_missing (c : Component) : bool := Js.falsy (recordId c).

Definition handleAddInspectionWorkPlan (created : Js.Outcome string) :
  Js.M Component Datatypes.unit :=
  c ← Js.get;
  if inspection_refused c then mret tt
  else if recordId_missing c then
    Js.dispatchToast "No Work Order"
      "This component must be opened from a Work Order to create a Work Plan. (Demo: simulating success)"
      "warning";;
    Js.modify (set_workPlanCreated true)
  else
    Js.modify (set_isCreatingWorkPlan true);;
    Js.try_finally
      (Js.try_catch
         (warningAttrs ←
            match selectedAsset c ≫= warningAttributes with
            | Some w => mret w
            | None => Js.throw {| Js.body_message := None |}
            end;
          _ ← Js.await "createInspectionWorkPlan" created;
          Js.modify (set_workPlanCreated true);;
          Js.dispatchToast "Inspection Work Plan Created"
            ("Work plan with " +:+ pretty (length warningAttrs + 4)%nat +:+
             " inspection steps created for " +:+
             from_option (fun a => asset_name (source a)) "" (selectedAsset c))
            "success")
         (fun error =>
            Js.emit (Js.ConsoleError "Error creating work plan:");;
            Js.dispatchToast "Error"
              (Js.error_message error "Failed to create inspection work plan")
              "error"))
      (Js.modify (set_isCreatingWorkPlan false)).

(** All assets of the component, floor after floor. *)
Definition all_assets (c : Component) : list LoadedAsset :=
  flat_map loaded_assets (assetsByFloor c).

(** The dataset property of one loaded asset: it is marked [Warning] exactly when
    some attribute of it is classified warning or critical, and, once the
    asset is selected, the inspection handler goes ahead exactly then. *)
Definition warning_iff_flagged (a : LoadedAsset) : Prop :=
  (asset_status (source a) = "Warning" <-> hasWarnings a = Some true) /\
  (forall rid,
     inspection_refused
       (handleAssetClick (id (source a)) (connectedCallback (initial rid))) = false <->
     asset_status (source a) = "Warning").

End BuildingAssetMap.

(** ** Predictive maintenance (asset health dashboard) *)

Module PredictiveMaintenance.

(** One element of [data.telemetryData], as the Apex controller sends it.
    The [status] field arrives with the reading. *)
Record Reading := {
  name : string;
  value : float;
  unit : string;
  minThreshold : float;
  maxThreshold : float;
  status : string
}.

Record Data := {
  riskLevel : string;
  failureProbability : float;
  telemetryData : option (list Reading);
  upcomingWorkOrderId : option string
}.

Record WorkOrder := {
  workOrderId : string;
  workOrderNumber : string;
  subject : string
}.

Definition getReadingStatusClass (status : string) : string :=
  if String.eqb status "critical" then "reading-status critical"
  else if String.eqb status "warning" then "reading-status warning"
  else "reading-status normal".

Definition getReadingStatusIcon (status : string) : string :=
  if String.eqb status "critical" then "utility:error"
  else if String.eqb status "warning" then "utility:warning"
  else "utility:success".

Definition getReadingBarClass (status : string) : string :=
  if String.eqb status "critical" then "reading-bar critical"
  else if String.eqb status "warning" then "reading-bar warning"
  else "reading-bar normal".

Definition getReadingStatusLabel (status : string) : string :=
  if String.eqb status "critical" then "OUT OF THRESHOLD"
  else if String.eqb status "warning" then "NEAR THRESHOLD"
  else "WITHIN THRESHOLD".

Definition getReadingItemClass (status : string) : string :=
  if String.eqb status "critical" then "telemetry-item critical"
  else if String.eqb status "warning" then "telemetry-item warning"
  else "telemetry-item normal".

(** The number inside [getReadingBarStyle]'s [width: ...%]. *)
Definition getReadingBarWidth (r : Reading) : float :=
  let range := PrimFloat.sub (maxThreshold r) (minThreshold r) in
  let percentage :=
    PrimFloat.mul (PrimFloat.div (PrimFloat.sub (value r) (minThreshold r)) range) 100 in
  Js.Math_max 0 (Js.Math_min 100 percentage).

(** One element of the [telemetryReadings] getter (the two strings built
    from numbers are left out). *)
Record DisplayReading := {
  reading : Reading;
  statusClass : string;
  statusIcon : string;
  statusLabel : string;
  barWidth : float;
  barClass : string;
  itemClass : string
}.

Definition display_reading (r : Reading) : DisplayReading :=
  {| reading := r;
     statusClass := getReadingStatusClass (status r);
     statusIcon := getReadingStatusIcon (status r);
     statusLabel := getReadingStatusLabel (status r);
     barWidth := getReadingBarWidth r;
     barClass := getReadingBarClass (status r);
     itemClass := getReadingItemClass (status r) |}.

Record Component := {
  recordId : string;
  data : option Data;
  workOrders : list WorkOrder;
  selectedWorkOrderId : option string;
  isLoading : bool;
  isCreating : bool;
  showWorkOrderModal : bool;
  workPlanCreated : bool;
  createdWorkPlanId : option string
}.

Definition initial (rid : string) : Component :=
  {| recordId := rid; data := None; workOrders := []; selectedWorkOrderId := None;
     isLoading := true; isCreating := false; showWorkOrderModal := false;
     workPlanCreated := false; createdWorkPlanId := None |}.

Definition set_data (v : option Data) (c : Component) : Component :=
  {| recordId := recordId c; data := v; workOrders := workOrders c;
     selectedWorkOrderId := selectedWorkOrderId c; isLoading := isLoading c;
     isCreating := isCreating c; showWorkOrderModal := showWorkOrderModal c;
     workPlanCreated := workPlanCreated c; createdWorkPlanId := createdWorkPlanId c |}.

Definition set_workOrders (v : list WorkOrder) (c : Component) : Component :=
  {| recordId := recordId c; data := data c; workOrders := v;
     selectedWorkOrderId := selectedWorkOrderId c; isLoading := isLoading c;
     isCreating := isCreating c; showWorkOrderModal := showWorkOrderModal c;
     workPlanCreated := workPlanCreated c; createdWorkPlanId := createdWorkPlanId c |}.

Definition set_selectedWorkOrderId (v : option string) (c : Component) : Component :=
  {| recordId := recordId c; data := data c; workOrders := workOrders c;
     selectedWorkOrderId := v; isLoading := isLoading c;
     isCreating := isCreating c; showWorkOrderModal := showWorkOrderModal c;
     workPlanCreated := workPlanCreated c; createdWorkPlanId := createdWorkPlanId c |}.

Definition set_isLoading (v : bool) (c : Component) : Component :=
  {| recordId := recordId c; data := data c; workOrders := workOrders c;
     selectedWorkOrderId := selectedWorkOrderId c; isLoading := v;
     isCreating := isCreating c; showWorkOrderModal := showWorkOrderModal c;
     workPlanCreated := workPlanCreated c; createdWorkPlanId := createdWorkPlanId c |}.

Definition set_isCreating (v : bool) (c : Component) : Component :=
  {| recordId := recordId c; data := data c; workOrders := workOrders c;
     selectedWorkOrderId := selectedWorkOrderId c; isLoading := isLoading c;
     isCreating := v; showWorkOrderModal := showWorkOrderModal c;
     workPlanCreated := workPlanCreated c; createdWorkPlanId := createdWorkPlanId c |}.

Definition set_showWorkOrderModal (v : bool) (c : Component) : Component :=
  {| recordId := recordId c; data := data c; workOrders := workOrders c;
     selectedWorkOrderId := selectedWorkOrderId c; isLoading := isLoading c;
     isCreating := isCreating c; showWorkOrderModal := v;
     workPlanCreated := workPlanCreated c; createdWorkPlanId := createdWorkPlanId c |}.

Definition set_workPlanCreated (v : bool) (c : Component) : Component :=
  {| recordId := recordId c; data := data c; workOrders := workOrders c;
     selectedWorkOrderId := selectedWorkOrderId c; isLoading := isLoading c;
     isCreating := isCreating c; showWorkOrderModal := showWorkOrderModal c;
     workPlanCreated := v; createdWorkPlanId := createdWorkPlanId c |}.

Definition set_createdWorkPlanId (v : option string) (c : Component) : Component :=
  {| recordId := recordId c; data := data c; workOrders := workOrders c;
     selectedWorkOrderId := selectedWorkOrderId c; isLoading := isLoading c;
     isCreating := isCreating c; showWorkOrderModal := showWorkOrderModal c;
     workPlanCreated := workPlanCreated c; createdWorkPlanId := v |}.

(** The [telemetryReadings] getter: [(this.data?.telemetryData || []).map(...)]. *)
Definition telemetryReadings (c : Component) : list DisplayReading :=
  map display_reading (default [] (data c ≫= telemetryData)).

(** What a wire adapter provisions: [{ data, error }]. *)
Record WireResult (A : Type) := {
  wire_data : option A;
  wire_error : option Js.JsError
}.
Arguments wire_data {A} w.
Arguments wire_error {A} w.

Definition wiredData (result : WireResult Data) : Js.M Component Datatypes.unit :=
  match wire_data result with
  | Some d =>
      Js.modify (set_data (Some d));;
      Js.modify (set_isLoading false)
  | None =>
      match wire_error result with
      | Some _ =>
          Js.emit (Js.ConsoleError "Error loading predictive data:");;
          Js.modify (set_isLoading false)
      | None => mret tt
      end
  end.

Definition wiredWorkOrders (result : WireResult (list WorkOrder)) :
  Js.M Component Datatypes.unit :=
  match wire_data result with
  | Some d => Js.modify (set_workOrders d)
  | None => mret tt
  end.

Definition createWorkPlan (created : Js.Outcome string) : Js.M Component Datatypes.unit :=
  Js.modify (set_isCreating true);;
  Js.modify (set_showWorkOrderModal false);;
  Js.try_finally
    (Js.try_catch
       (workPlanId ← Js.await "createPreventiveWorkPlan" created;
        Js.modify (set_createdWorkPlanId (Some workPlanId));;
        Js.modify (set_workPlanCreated true);;
        Js.dispatchToast "Preventive Work Plan Created"
          "A 7-step inspection work plan has been added to the selected work order."
          "success";;
        Js.emit (Js.RemoteCall "refreshApex"))
       (fun error =>
          Js.emit (Js.ConsoleError "Error creating work plan:");;
          Js.dispatchToast "Error"
            (Js.error_message error "Failed to create preventive work plan")
            "error"))
    (Js.modify (set_isCreating false)).

Definition handleAddPreventiveWork (created : Js.Outcome string) :
  Js.M Component Datatypes.unit :=
  c ← Js.get;
  match Js.truthy (data c ≫= upcomingWorkOrderId) with
  | Some wo =>
      Js.modify (set_selectedWorkOrderId (Some wo));;
      createWorkPlan created
  | None =>
      match workOrders c with
      | _ :: _ => Js.modify (set_showWorkOrderModal true)
      | [] =>
          Js.dispatchToast "No Work Orders Available"
            "No upcoming work orders found at this location. Create a new work order first."
            "warning"
      end
  end.

Definition handleConfirmWorkOrder (created : Js.Outcome string) :
  Js.M Component Datatypes.unit :=
  c ← Js.get;
  match Js.truthy (selectedWorkOrderId c) with
  | Some _ => createWorkPlan created
  | None => mret tt
  end.

(** *** Risk and probability getters *)

Definition isHighRisk (c : Component) : bool :=
  match data c with Some d => String.eqb (riskLevel d) "High" | None => false end.

Definition isMediumRisk (c : Component) : bool :=
  match data c with Some d => String.eqb (riskLevel d) "Medium" | None => false end.

Definition riskBadgeClass (c : Component) : string :=
  if isHighRisk c then "slds-badge slds-theme_error"
  else if isMediumRisk c then "slds-badge slds-theme_warning"
  else "slds-badge slds-theme_success".

(** [const prob = this.data?.failureProbability || 0] and the class chosen
    from it. *)
Definition failureProbabilityClass (c : Component) : string :=
  let prob := Js.number_or (failureProbability <$> data c) 0 in
  if Js.ge prob 70 then "probability-bar critical"
  else if Js.ge prob 40 then "probability-bar warning"
  else "probability-bar low".

(** [this.data?.failureProbability >= 40 && !this.workPlanCreated] *)
Definition showAddWorkButton (c : Component) : bool :=
  match data c with
  | Some d => (Js.ge (failureProbability d) 40 && negb (workPlanCreated c))%bool
  | None => false
  end.

Definition hasWorkOrders (c : Component) : bool := (0 <? length (workOrders c))%nat.

Definition isAddButtonDisabled (c : Component) : bool := Js.falsy (selectedWorkOrderId c).

Definition handleWorkOrderSelect (v : string) (c : Component) : Component :=
  set_selectedWorkOrderId (Some v) c.

Definition handleCloseModal (c : Component) : Component :=
  set_selectedWorkOrderId None (set_showWorkOrderModal false c).

End PredictiveMaintenance.

(** ** Order progress (orchestration journey viewer) *)

Module OrderProgressMobile.

Record WorkOrderNode := {
  WorkOrderNumber : option string;
  Subject : option string;
  COM_Order__c : option string
}.

Record Component := {
  isLoading : bool;
  _workOrderData : option WorkOrderNode
}.

Definition initial : Component := {| isLoading := true; _workOrderData := None |}.

(** What the GraphQL wire adapter provisions: [{ data, errors }], where
    [data] is reduced to the list [data.uiapi.query.WorkOrder.edges] of nodes. *)
Record GraphQLResult := {
  gql_data : option (list WorkOrderNode);
  gql_errors : option (list Js.JsError)
}.

Definition handleWorkOrderResult (result : GraphQLResult) : Js.M Component unit :=
  Js.modify (fun c => {| isLoading := false; _workOrderData := _workOrderData c |});;
  match gql_errors result with
  | Some _ => Js.emit (Js.ConsoleError "GraphQL errors:")
  | None => mret tt
  end;;
  match gql_data result with
  | Some (node :: _) =>
      Js.modify (fun c => {| isLoading := isLoading c; _workOrderData := Some node |})
  | _ => mret tt
  end.

(** *** The orchestration stages *)

Record StageStep := { step_name : string; complete : bool }.

Record Stage := {
  stage : Z;
  name : string;
  dependencies : list Z;
  parallelWith : list string;
  steps : list StageStep
}.

(** [ORCHESTRATION_STAGES], with the fields the getters compute from (of a
    dependency, the stage it names; of a parallel track, its label). *)
Definition ORCHESTRATION_STAGES : list Stage :=
  [ {| stage := 1; name := "Order Intake"; dependencies := []; parallelWith := [];
       steps := [ {| step_name := "Validate Order Details"; complete := true |};
                  {| step_name := "Credit Check"; complete := true |};
                  {| step_name := "Assign Project Manager"; complete := true |} ] |};
    {| stage := 2; name := "Design & Planning"; dependencies := [ 1%Z ]; parallelWith := [];
       steps := [ {| step_name := "Schedule Site Survey"; complete := true |};
                  {| step_name := "Complete Network Design"; complete := true |};
                  {| step_name := "Customer Design Approval"; complete := true |} ] |};
    {| stage := 3; name := "Procurement"; dependencies := [ 2%Z ]; parallelWith := [];
       steps := [ {| step_name := "Order CPE Equipment"; complete := true |};
                  {| step_name := "Stage & Configure Hardware"; complete := true |};
                  {| step_name := "Quality Verification"; complete := true |} ] |};
    {| stage := 4; name := "Construction"; dependencies := [ 3%Z ]; parallelWith := [];
       steps := [ {| step_name := "Fiber Path Construction"; complete := true |};
                  {| step_name := "Splice Completion"; complete := true |};
                  {| step_name := "Path Verification Test"; complete := true |} ] |};
    {| stage := 5; name := "Field Installation"; dependencies := [ 4%Z ];
       parallelWith := [ "Remote Config Team" ];
       steps := [ {| step_name := "Dispatch Field Technician"; complete := true |};
                  {| step_name := "CPE Installation"; complete := false |};
                  {| step_name := "Circuit Activation"; complete := false |};
                  {| step_name := "Signal Verification"; complete := false |} ] |};
    {| stage := 6; name := "Testing & Turnup"; dependencies := [ 5%Z ]; parallelWith := [];
       steps := [ {| step_name := "End-to-End Testing"; complete := false |};
                  {| step_name := "Speed Verification"; complete := false |};
                  {| step_name := "Customer Acceptance"; complete := false |} ] |};
    {| stage := 7; name := "Billing Activation"; dependencies := [ 6%Z ]; parallelWith := [];
       steps := [ {| step_name := "Activate Billing"; complete := false |};
                  {| step_name := "Send Welcome Kit"; complete := false |};
                  {| step_name := "Close Order"; complete := false |} ] |} ].

Definition CURRENT_STAGE : Z := 5.

(** One element of the [stages] getter (the keys and class strings built
    from the stage number are left out). *)
Record StageView := {
  view_of : Stage;
  status : string;
  statusLabel : string;
  statusClass : string;
  statusIcon : string;
  isExpanded : bool;
  isCurrent : bool;
  isCompleted : bool;
  isPending : bool;
  chevronIcon : string;
  hasDependencies : bool;
  hasParallel : bool
}.

(** [expandedStages] is a [Set] of stage numbers. *)
Definition stage_view (expandedStages : gset Z) (s : Stage) : StageView :=
  let '(status, statusLabel, statusClass, statusIcon) :=
    if (stage s <? CURRENT_STAGE)%Z then
      ("completed", "Complete", "stage-completed", "utility:check")
    else if (stage s =? CURRENT_STAGE)%Z then
      ("current", "In Progress", "stage-current", "utility:sync")
    else ("pending", "Pending", "stage-pending", "utility:clock") in
  let isExpanded := bool_decide (stage s ∈ expandedStages) in
  {| view_of := s; status := status; statusLabel := statusLabel;
     statusClass := statusClass; statusIcon := statusIcon;
     isExpanded := isExpanded;
     isCurrent := (stage s =? CURRENT_STAGE)%Z;
     isCompleted := (stage s <? CURRENT_STAGE)%Z;
     isPending := (CURRENT_STAGE <? stage s)%Z;
     chevronIcon := if isExpanded then "utility:chevrondown" else "utility:chevronright";
     hasDependencies := (0 <? length (dependencies s))%nat;
     hasParallel := (0 <? length (parallelWith s))%nat |}.

Definition stages (expandedStages : gset Z) : list StageView :=
  map (stage_view expandedStages) ORCHESTRATION_STAGES.

(** The field initialiser: the current stage is expanded. *)
Definition initial_expandedStages : gset Z := {[ CURRENT_STAGE ]}.

(** [handleStageClick], with [stageNum] the number parsed from the card. *)
Definition handleStageClick (stageNum : Z) (expandedStages : gset Z) : gset Z :=
  if bool_decide (stageNum ∈ expandedStages)
  then expandedStages ∖ {[ stageNum ]}
  else expandedStages ∪ {[ stageNum ]}.

Definition handleExpandAll (expandedStages : gset Z) : gset Z :=
  list_to_set (map stage ORCHESTRATION_STAGES).

Definition handleCollapseAll (expandedStages : gset Z) : gset Z := {[ CURRENT_STAGE ]}.

Definition currentStageName : string :=
  match List.find (fun s => (stage s =? CURRENT_STAGE)%Z) ORCHESTRATION_STAGES with
  | Some s => name s
  | None => ""
  end.

End OrderProgressMobile.

(** ** Service appointment status update *)

Module SaStatusUpdate.

Record StatusConfig := {
  next : list string;
  color : string;
  icon : string
}.

(** The object literal [STATUS_CONFIG]: its own properties. *)
Definition STATUS_CONFIG : gmap string StatusConfig :=
  list_to_map
    [ ("None", {| next := ["Scheduled"]; color := "#706e6b"; icon := "utility:clock" |});
      ("Scheduled", {| next := ["Dispatched"; "Travel"]; color := "#0070d2";
                       icon := "utility:event" |});
      ("Dispatched", {| next := ["Travel"; "In Progress"]; color := "#ff9a3c";
                        icon := "utility:routing_offline" |});
      ("Travel", {| next := ["In Progress"]; color := "#1589ee";
                    icon := "utility:travel_and_places" |});
      ("In Progress", {| next := ["Completed"; "Cannot Complete"]; color := "#04844b";
                         icon := "utility:activity" |});
      ("Completed", {| next := []; color := "#2e844a"; icon := "utility:check" |});
      ("Cannot Complete", {| next := []; color := "#c23934"; icon := "utility:close" |});
      ("Canceled", {| next := []; color := "#706e6b"; icon := "utility:ban" |}) ].

(** [STATUS_CONFIG] is a plain object literal, so a bracket lookup that
    misses the own properties continues in [Object.prototype].  These are
    the property names found there; each holds a function (or, for
    [__proto__], the prototype object): a truthy value that has no [next],
    [color] or [icon] property. *)
Definition OBJECT_PROTOTYPE_KEYS : list string :=
  [ "constructor"; "hasOwnProperty"; "isPrototypeOf"; "propertyIsEnumerable";
    "toLocaleString"; "toString"; "valueOf"; "__proto__";
    "__defineGetter__"; "__defineSetter__"; "__lookupGetter__"; "__lookupSetter__" ].

(** The value of [STATUS_CONFIG[key]] when it is not [undefined]. *)
Inductive ConfigValue :=
| OwnConfig (c : StatusConfig)
| Inherited (key : string).

(** [STATUS_CONFIG[key]]; [None] is [undefined]. *)
Definition STATUS_CONFIG_at (key : string) : option ConfigValue :=
  match STATUS_CONFIG !! key with
  | Some c => Some (OwnConfig c)
  | None =>
      if bool_decide (key ∈ OBJECT_PROTOTYPE_KEYS) then Some (Inherited key) else None
  end.

(** The node of the GraphQL result the getters read. *)
Record ServiceAppointment := {
  AppointmentNumber : option string;
  Status : option string;
  Subject : option string;
  FSL__Time_Dependency__c : option string;
  FSL__Related_Service__c : option string
}.

Record Component := {
  recordId : string;
  isProcessing : bool;
  showBlockModal : bool;
  blockReason : string;
  blockNotes : string;
  dependentAppointments : list string;
  showDependencyWarning : bool
}.

(** The component together with the appointment record it is opened on.
    [serviceAppointmentResult] is what the GraphQL wire has provisioned (the
    node of the first edge, [None] until data arrives); [record_Status] is
    the [Status] field of the record as the platform holds it. *)
Record System := {
  comp : Component;
  serviceAppointmentResult : option ServiceAppointment;
  record_Status : option string
}.

Definition initial_component (rid : string) : Component :=
  {| recordId := rid; isProcessing := false; showBlockModal := false;
     blockReason := ""; blockNotes := ""; dependentAppointments := [];
     showDependencyWarning := false |}.

Definition set_isProcessing (v : bool) (c : Component) : Component :=
  {| recordId := recordId c; isProcessing := v; showBlockModal := showBlockModal c;
     blockReason := blockReason c; blockNotes := blockNotes c;
     dependentAppointments := dependentAppointments c;
     showDependencyWarning := showDependencyWarning c |}.

Definition set_showBlockModal (v : bool) (c : Component) : Component :=
  {| recordId := recordId c; isProcessing := isProcessing c; showBlockModal := v;
     blockReason := blockReason c; blockNotes := blockNotes c;
     dependentAppointments := dependentAppointments c;
     showDependencyWarning := showDependencyWarning c |}.

Definition set_blockReason (v : string) (c : Component) : Component :=
  {| recordId := recordId c; isProcessing := isProcessing c;
     showBlockModal := showBlockModal c;
     blockReason := v; blockNotes := blockNotes c;
     dependentAppointments := dependentAppointments c;
     showDependencyWarning := showDependencyWarning c |}.

Definition set_blockNotes (v : string) (c : Component) : Component :=
  {| recordId := recordId c; isProcessing := isProcessing c;
     showBlockModal := showBlockModal c;
     blockReason := blockReason c; blockNotes := v;
     dependentAppointments := dependentAppointments c;
     showDependencyWarning := showDependencyWarning c |}.

Definition set_dependentAppointments (v : list string) (c : Component) : Component :=
  {| recordId := recordId c; isProcessing := isProcessing c;
     showBlockModal := showBlockModal c;
     blockReason := blockReason c; blockNotes := blockNotes c;
     dependentAppointments := v;
     showDependencyWarning := showDependencyWarning c |}.

Definition set_showDependencyWarning (v : bool) (c : Component) : Component :=
  {| recordId := recordId c; isProcessing := isProcessing c;
     showBlockModal := showBlockModal c;
     blockReason := blockReason c; blockNotes := blockNotes c;
     dependentAppointments := dependentAppointments c;
     showDependencyWarning := v |}.

Definition on_comp (f : Component -> Component) (s : System) : System :=
  {| comp := f (comp s);
     serviceAppointmentResult := serviceAppointmentResult s;
     record_Status := record_Status s |}.

(** A successful [updateRecord]: the platform writes the [Status] field and
    the record cache re-provisions the wire, if it has data, with the new
    value. *)
Definition write_Status (v : string) (s : System) : System :=
  {| comp := comp s;
     serviceAppointmentResult :=
       match serviceAppointmentResult s with
       | Some sa =>
           Some {| AppointmentNumber := AppointmentNumber sa; Status := Some v;
                   Subject := Subject sa;
                   FSL__Time_Dependency__c := FSL__Time_Dependency__c sa;
                   FSL__Related_Service__c := FSL__Related_Service__c sa |}
       | None => None
       end;
     record_Status := Some v |}.

(** *** Getters *)

Definition serviceAppointment (s : System) : option ServiceAppointment :=
  serviceAppointmentResult s.

Definition currentStatus (s : System) : string :=
  Js.or_default (serviceAppointment s ≫= Status) "None".

(** [STATUS_CONFIG[this.currentStatus] || STATUS_CONFIG['None']] *)
Definition statusConfig (s : System) : option ConfigValue :=
  match STATUS_CONFIG_at (currentStatus s) with
  | Some v => Some v
  | None => STATUS_CONFIG_at "None"
  end.

(** [config.next]: [undefined] on a value that is not a configuration. *)
Definition config_next (v : ConfigValue) : option (list string) :=
  match v with
  | OwnConfig c => Some (next c)
  | Inherited _ => None
  end.

Definition config_icon (v : ConfigValue) : option string :=
  match v with
  | OwnConfig c => Some (icon c)
  | Inherited _ => None
  end.

Record NextOption := {
  label : string;
  value : string;
  variant : string;
  option_icon : string
}.

Definition next_option (status : string) : NextOption :=
  {| label := status;
     value := status;
     variant := if String.eqb status "Completed" then "success" else "neutral";
     option_icon := Js.or_default (STATUS_CONFIG_at status ≫= config_icon) "utility:forward" |}.

(** The [nextStatusOptions] getter.  [None] is the [TypeError] of reading
    [.map] of [undefined]. *)
Definition nextStatusOptions (s : System) : option (list NextOption) :=
  config ← statusConfig s;
  nexts ← config_next config;
  Some (map next_option nexts).

(** The [canUpdateStatus] getter; [None] is the [TypeError] of reading
    [.length] of [undefined]. *)
Definition canUpdateStatus (s : System) : option bool :=
  config ← statusConfig s;
  nexts ← config_next config;
  Some (0 <? length nexts)%nat.

Definition showBlockButton (s : System) : bool :=
  (negb (String.eqb (currentStatus s) "Cannot Complete") &&
   negb (String.eqb (currentStatus s) "Completed") &&
   negb (String.eqb (currentStatus s) "Canceled"))%bool.

(** *** Handlers *)

(** [await updateRecord({ fields })] with [fields.Status = newStatus]. *)
Definition updateRecord (newStatus : string) (o : Js.Outcome unit) : Js.M System unit :=
  Js.await "updateRecord" o;;
  Js.modify (write_Status newStatus).

Definition updateAppointmentStatus (newStatus : string) (updated : Js.Outcome unit) :
  Js.M System unit :=
  Js.modify (on_comp (set_isProcessing true));;
  Js.try_finally
    (Js.try_catch
       (updateRecord newStatus updated;;
        Js.dispatchToast "Status Updated"
          ("Appointment status changed to " +:+ newStatus) "success")
       (fun error =>
          Js.dispatchToast "Error"
            (Js.error_message error "Failed to update status") "error"))
    (Js.modify (on_comp (set_isProcessing false))).

(** [handleStatusUpdate(event)], with [status = event.target.dataset.status]. *)
Definition handleStatusUpdate (status : string) (updated : Js.Outcome unit) :
  Js.M System unit :=
  updateAppointmentStatus status updated.

Definition loadDependentAppointments (chain : Js.Outcome (option (list string))) :
  Js.M System unit :=
  Js.try_catch
    (chainData ← Js.await "getAppointmentChain" chain;
     match chainData with
     | Some (d :: ds) =>
         Js.modify (on_comp (set_dependentAppointments (d :: ds)));;
         Js.modify (on_comp (set_showDependencyWarning true))
     | _ => mret tt
     end)
    (fun error => Js.emit (Js.ConsoleError "Error loading dependencies:")).

Definition handleBlockClick (chain : Js.Outcome (option (list string))) :
  Js.M System unit :=
  Js.modify (on_comp (set_showBlockModal true));;
  loadDependentAppointments chain.

Definition handleCloseBlockModal : Js.M System unit :=
  Js.modify (on_comp (set_showBlockModal false));;
  Js.modify (on_comp (set_blockReason ""));;
  Js.modify (on_comp (set_blockNotes ""));;
  Js.modify (on_comp (set_dependentAppointments []));;
  Js.modify (on_comp (set_showDependencyWarning false)).

Definition handleBlockReasonChange (v : string) : Js.M System unit :=
  Js.modify (on_comp (set_blockReason v)).

Definition handleBlockNotesChange (v : string) : Js.M System unit :=
  Js.modify (on_comp (set_blockNotes v)).

Record RsoResult := { rsoCount : nat }.

Definition handleConfirmBlock (updated : Js.Outcome unit) (rso : Js.Outcome RsoResult) :
  Js.M System unit :=
  s ← Js.get;
  if String.eqb (blockReason (comp s)) "" then
    Js.dispatchToast "Error" "Please select a block reason" "error"
  else
    Js.modify (on_comp (set_isProcessing true));;
    Js.try_finally
      (Js.try_catch
         (updateRecord "Cannot Complete" updated;;
          rsoResult ← Js.await "triggerRSOForBlockedAppointment" rso;
          Js.dispatchToast "Appointment Blocked"
            ("RSO triggered for " +:+ pretty (rsoCount rsoResult) +:+ " resource(s)")
            "success";;
          handleCloseBlockModal)
         (fun error =>
            Js.dispatchToast "Error"
              (Js.error_message error "Failed to block appointment") "error"))
      (Js.modify (on_comp (set_isProcessing false))).

(** *** The operations a user can perform *)

Inductive Operation :=
| PressNextStatus (status : string) (updated : Js.Outcome unit)
| BlockAppointment (reason notes : string)
    (chain : Js.Outcome (option (list string)))
    (updated : Js.Outcome unit) (rso : Js.Outcome RsoResult).

(** Modelled from the spec: the HTML template of the component is not among
    the sources.  It is taken to offer what the getters compute for it: one
    button per element of [nextStatusOptions], carrying that element's
    [value] as its [data-status], and the block button when
    [showBlockButton] holds. *)
Definition offered (s : System) (op : Operation) : bool :=
  match op with
  | PressNextStatus status _ =>
      match nextStatusOptions s with
      | Some options => existsb (String.eqb status) (map value options)
      | None => false
      end
  | BlockAppointment _ _ _ _ _ => showBlockButton s
  end.

(** Pressing a next-status button; or opening the block dialog, choosing a
    reason, typing notes and confirming. *)
Definition perform (op : Operation) : Js.M System unit :=
  match op with
  | PressNextStatus status updated => handleStatusUpdate status updated
  | BlockAppointment reason notes chain updated rso =>
      handleBlockClick chain;;
      handleBlockReasonChange reason;;
      handleBlockNotesChange notes;;
      handleConfirmBlock updated rso
  end.

(** The wire has data and shows the record as the platform holds it. *)
Definition in_sync (s : System) : Prop :=
  exists sa, serviceAppointmentResult s = Some sa /\ Status sa = record_Status s.


(** A system opened on a record whose status is [status]. *)
Definition opened_on (rid status : string) : System :=
  {| comp := initial_component rid;
     serviceAppointmentResult :=
       Some {| AppointmentNumber := Some "SA-0001"; Status := Some status;
               Subject := None; FSL__Time_Dependency__c := None;
               FSL__Related_Service__c := None |};
     record_Status := Some status |}.

(** *** Further getters *)

Definition hasDependency (s : System) : bool :=
  (bool_decide (is_Some (serviceAppointment s ≫= FSL__Related_Service__c)) ||
   bool_decide (is_Some (serviceAppointment s ≫= FSL__Time_Dependency__c)))%bool.

(** The next statuses the literal lists for [status]; none for a status it
    does not list. *)
Definition table_next (status : string) : list string :=
  match STATUS_CONFIG !! status with
  | Some c => next c
  | None => []
  end.

(** A sequence of statuses in which each one is listed as a next status of
    the one before. *)
Fixpoint is_path (xs : list string) : Prop :=
  match xs with
  | x :: ((y :: _) as rest) => In y (table_next x) /\ is_path rest
  | _ => True
  end.

(** How far along the workflow a status is. *)
Definition rank (status : string) : nat :=
  if String.eqb status "None" then 0
  else if String.eqb status "Scheduled" then 1
  else if String.eqb status "Dispatched" then 2
  else if String.eqb status "Travel" then 3
  else if String.eqb status "In Progress" then 4
  else 5.

End SaStatusUpdate.

(** ** The status transition table, as the specification words it *)

Module TransitionTable.

Definition states : list string :=
  [ "None"; "Scheduled"; "Dispatched"; "Travel"; "In Progress";
    "Completed"; "Cannot Complete"; "Canceled" ].

Definition terminal : list string := [ "Completed"; "Cannot Complete"; "Canceled" ].

(** The column "Allowed next states" of the table. *)
Definition allowed_next (state : string) : list string :=
  if String.eqb state "None" then [ "Scheduled" ]
  else if String.eqb state "Scheduled" then [ "Dispatched"; "Travel" ]
  else if String.eqb state "Dispatched" then [ "Travel"; "In Progress" ]
  else if String.eqb state "Travel" then [ "In Progress" ]
  else if String.eqb state "In Progress" then [ "Completed"; "Cannot Complete" ]
  else [].

(** The statuses the component offers as a next step, when the getter
    returns. *)
Definition offered_next (s : SaStatusUpdate.System) : option (list string) :=
  map SaStatusUpdate.value <$> SaStatusUpdate.nextStatusOptions s.

(** An operation moves the record along the table: the status is left as
    it is, or becomes one the table allows after the current one. *)
Definition along_table (s : SaStatusUpdate.System) (op : SaStatusUpdate.Operation) : Prop :=
  let s' := Js.state_of (SaStatusUpdate.perform op s) in
  SaStatusUpdate.record_Status s' = SaStatusUpdate.record_Status s \/
  exists status,
    SaStatusUpdate.record_Status s' = Some status /\
    In status (allowed_next (SaStatusUpdate.currentStatus s)).



End TransitionTable.

(** ** CPE provisioning wizard *)

Module CpeProvisioning.

Module ADAPT_STATUS.
Definition DISCONNECTED := "Disconnected".
Definition CONNECTING := "Connecting...".
Definition CONNECTED := "Connected".
Definition VALIDATING := "Validating...".
Definition VALIDATED := "Validated".
Definition PROVISIONING := "Provisioning...".
Definition PROVISIONED := "Provisioned".
Definition ACTIVATING := "Activating...".
Definition ACTIVATED := "Activated".
Definition ERROR := "Error".
End ADAPT_STATUS.

(** What the two GraphQL wires provision, reduced to the fields read. *)
Record ServiceAppointment := {
  AppointmentNumber : option string;
  AccountName : option string
}.

Record WorkOrder := {
  WorkOrderNumber : option string;
  AssetId : option string;
  AssetSerialNumber : option string
}.

(** One entry of [provisioningLog]; [id] is [Date.now()] in milliseconds
    (the formatted [timestamp] is the same instant and is left out). *)
Record LogEntry := {
  id : Z;
  message : string;
  type : string;
  iconName : string
}.

Record Component := {
  serviceAppointment : option ServiceAppointment;
  workOrder : option WorkOrder;
  currentStep : Z;
  adaptStatus : string;
  isProcessing : bool;
  provisioningComplete : bool;
  manualSerialNumber : string;
  manualSerialEntered : bool;
  isChangingCpe : bool;
  signalStrength : option string;
  opticalPower : option string;
  connectionSpeed : option string;
  provisioningLog : list LogEntry
}.

Definition set_currentStep (v : Z) (c : Component) : Component :=
  {| serviceAppointment := serviceAppointment c; workOrder := workOrder c;
     currentStep := v; adaptStatus := adaptStatus c; isProcessing := isProcessing c;
     provisioningComplete := provisioningComplete c;
     manualSerialNumber := manualSerialNumber c;
     manualSerialEntered := manualSerialEntered c; isChangingCpe := isChangingCpe c;
     signalStrength := signalStrength c; opticalPower := opticalPower c;
     connectionSpeed := connectionSpeed c; provisioningLog := provisioningLog c |}.

Definition set_adaptStatus (v : string) (c : Component) : Component :=
  {| serviceAppointment := serviceAppointment c; workOrder := workOrder c;
     currentStep := currentStep c; adaptStatus := v; isProcessing := isProcessing c;
     provisioningComplete := provisioningComplete c;
     manualSerialNumber := manualSerialNumber c;
     manualSerialEntered := manualSerialEntered c; isChangingCpe := isChangingCpe c;
     signalStrength := signalStrength c; opticalPower := opticalPower c;
     connectionSpeed := connectionSpeed c; provisioningLog := provisioningLog c |}.

Definition set_isProcessing (v : bool) (c : Component) : Component :=
  {| serviceAppointment := serviceAppointment c; workOrder := workOrder c;
     currentStep := currentStep c; adaptStatus := adaptStatus c; isProcessing := v;
     provisioningComplete := provisioningComplete c;
     manualSerialNumber := manualSerialNumber c;
     manualSerialEntered := manualSerialEntered c; isChangingCpe := isChangingCpe c;
     signalStrength := signalStrength c; opticalPower := opticalPower c;
     connectionSpeed := connectionSpeed c; provisioningLog := provisioningLog c |}.

Definition set_provisioningComplete (v : bool) (c : Component) : Component :=
  {| serviceAppointment := serviceAppointment c; workOrder := workOrder c;
     currentStep := currentStep c; adaptStatus := adaptStatus c;
     isProcessing := isProcessing c; provisioningComplete := v;
     manualSerialNumber := manualSerialNumber c;
     manualSerialEntered := manualSerialEntered c; isChangingCpe := isChangingCpe c;
     signalStrength := signalStrength c; opticalPower := opticalPower c;
     connectionSpeed := connectionSpeed c; provisioningLog := provisioningLog c |}.

Definition set_manualSerialNumber (v : string) (c : Component) : Component :=
  {| serviceAppointment := serviceAppointment c; workOrder := workOrder c;
     currentStep := currentStep c; adaptStatus := adaptStatus c;
     isProcessing := isProcessing c; provisioningComplete := provisioningComplete c;
     manualSerialNumber := v; manualSerialEntered := manualSerialEntered c;
     isChangingCpe := isChangingCpe c; signalStrength := signalStrength c;
     opticalPower := opticalPower c; connectionSpeed := connectionSpeed c;
     provisioningLog := provisioningLog c |}.

Definition set_manualSerialEntered (v : bool) (c : Component) : Component :=
  {| serviceAppointment := serviceAppointment c; workOrder := workOrder c;
     currentStep := currentStep c; adaptStatus := adaptStatus c;
     isProcessing := isProcessing c; provisioningComplete := provisioningComplete c;
     manualSerialNumber := manualSerialNumber c; manualSerialEntered := v;
     isChangingCpe := isChangingCpe c; signalStrength := signalStrength c;
     opticalPower := opticalPower c; connectionSpeed := connectionSpeed c;
     provisioningLog := provisioningLog c |}.

Definition set_isChangingCpe (v : bool) (c : Component) : Component :=
  {| serviceAppointment := serviceAppointment c; workOrder := workOrder c;
     currentStep := currentStep c; adaptStatus := adaptStatus c;
     isProcessing := isProcessing c; provisioningComplete := provisioningComplete c;
     manualSerialNumber := manualSerialNumber c;
     manualSerialEntered := manualSerialEntered c; isChangingCpe := v;
     signalStrength := signalStrength c; opticalPower := opticalPower c;
     connectionSpeed := connectionSpeed c; provisioningLog := provisioningLog c |}.

Definition set_signalStrength (v : option string) (c : Component) : Component :=
  {| serviceAppointment := serviceAppointment c; workOrder := workOrder c;
     currentStep := currentStep c; adaptStatus := adaptStatus c;
     isProcessing := isProcessing c; provisioningComplete := provisioningComplete c;
     manualSerialNumber := manualSerialNumber c;
     manualSerialEntered := manualSerialEntered c; isChangingCpe := isChangingCpe c;
     signalStrength := v; opticalPower := opticalPower c;
     connectionSpeed := connectionSpeed c; provisioningLog := provisioningLog c |}.

Definition set_opticalPower (v : option string) (c : Component) : Component :=
  {| serviceAppointment := serviceAppointment c; workOrder := workOrder c;
     currentStep := currentStep c; adaptStatus := adaptStatus c;
     isProcessing := isProcessing c; provisioningComplete := provisioningComplete c;
     manualSerialNumber := manualSerialNumber c;
     manualSerialEntered := manualSerialEntered c; isChangingCpe := isChangingCpe c;
     signalStrength := signalStrength c; opticalPower := v;
     connectionSpeed := connectionSpeed c; provisioningLog := provisioningLog c |}.

Definition set_connectionSpeed (v : option string) (c : Component) : Component :=
  {| serviceAppointment := serviceAppointment c; workOrder := workOrder c;
     currentStep := currentStep c; adaptStatus := adaptStatus c;
     isProcessing := isProcessing c; provisioningComplete := provisioningComplete c;
     manualSerialNumber := manualSerialNumber c;
     manualSerialEntered := manualSerialEntered c; isChangingCpe := isChangingCpe c;
     signalStrength := signalStrength c; opticalPower := opticalPower c;
     connectionSpeed := v; provisioningLog := provisioningLog c |}.

Definition set_provisioningLog (v : list LogEntry) (c : Component) : Component :=
  {| serviceAppointment := serviceAppointment c; workOrder := workOrder c;
     currentStep := currentStep c; adaptStatus := adaptStatus c;
     isProcessing := isProcessing c; provisioningComplete := provisioningComplete c;
     manualSerialNumber := manualSerialNumber c;
     manualSerialEntered := manualSerialEntered c; isChangingCpe := isChangingCpe c;
     signalStrength := signalStrength c; opticalPower := opticalPower c;
     connectionSpeed := connectionSpeed c; provisioningLog := v |}.
(** The field initialisers of the class. *)
Definition initial (sa : option ServiceAppointment) (wo : option WorkOrder) : Component :=
  {| serviceAppointment := sa; workOrder := wo;
     currentStep := 1; adaptStatus := ADAPT_STATUS.DISCONNECTED; isProcessing := false;
     provisioningComplete := false; manualSerialNumber := "";
     manualSerialEntered := false; isChangingCpe := false;
     signalStrength := None; opticalPower := None; connectionSpeed := None;
     provisioningLog := [] |}.

(** *** Getters *)

Definition displayWorkOrderNumber (c : Component) : string :=
  Js.or_default (workOrder c ≫= WorkOrderNumber) "Loading...".

Definition displayAccountName (c : Component) : string :=
  Js.or_default (serviceAppointment c ≫= AccountName) "N/A".

Definition displaySerialNumber (c : Component) : string :=
  if manualSerialEntered c then manualSerialNumber c
  else Js.or_default (workOrder c ≫= AssetSerialNumber) "N/A".

Definition disableStartProvisioning (c : Component) : bool :=
  (isProcessing c ||
   (Js.falsy (workOrder c ≫= AssetId) && negb (manualSerialEntered c)))%bool.

Definition isStep1 (c : Component) : bool := (currentStep c =? 1)%Z.
Definition isStep2 (c : Component) : bool := (currentStep c =? 2)%Z.
Definition isStep3 (c : Component) : bool := (currentStep c =? 3)%Z.
Definition isStep4 (c : Component) : bool := (currentStep c =? 4)%Z.

(** [s.trim() === ''], for the ASCII white space characters. *)
Definition is_space (a : Ascii.ascii) : bool :=
  let n := Ascii.nat_of_ascii a in
  ((n =? 32) || ((9 <=? n) && (n <=? 13)))%nat%bool.

Fixpoint is_blank (s : string) : bool :=
  match s with
  | EmptyString => true
  | String a rest => (is_space a && is_blank rest)%bool
  end.

(** *** The log helper *)

Definition addLog (message type : string) (now : Z) (c : Component) : Component :=
  set_provisioningLog
    (provisioningLog c ++
     [ {| id := now; message := message; type := type;
          iconName := if String.eqb type "success" then "utility:success"
                      else if String.eqb type "error" then "utility:error"
                      else "utility:info" |} ]) c.

(** *** Asynchronous methods as scripts

    An [async] method is the list of its statements; [await this.delay(ms)]
    is [Delay ms], and awaiting another [async] method runs its statements
    in place.  [Enter] and [Exit] mark where a method body starts and ends;
    they change nothing and only appear in the history of the run. *)

Inductive Instr :=
| Do (f : Z -> Component -> Component)
| Dispatch (e : Component -> Js.Event)
| Delay (ms : Z)
| Enter (fn : string)
| Exit (fn : string).

Definition Script := list Instr.

Definition assign (f : Component -> Component) : Instr := Do (fun _ c => f c).

Definition connectToADAPT : Script :=
  [ Enter "connectToADAPT";
    assign (set_isProcessing true);
    assign (set_adaptStatus ADAPT_STATUS.CONNECTING);
    Do (fun now c =>
          let customerContext :=
            if String.eqb (displayAccountName c) "N/A" then ""
            else " for " +:+ displayAccountName c in
          addLog ("Connecting to ADAPT" +:+ customerContext +:+ "...") "info" now c);
    Delay 1500;
    assign (set_adaptStatus ADAPT_STATUS.CONNECTED);
    Do (addLog "ADAPT connection established" "success");
    Do (fun now c =>
          if String.eqb (displayWorkOrderNumber c) "Loading..." then c
          else addLog ("WO: " +:+ displayWorkOrderNumber c) "info" now c);
    assign (set_currentStep 2);
    assign (set_isProcessing false);
    Exit "connectToADAPT" ].

(** [mac] is the string [generateMacAddress] draws. *)
Definition validateSerial (mac : string) : Script :=
  [ Enter "validateSerial";
    assign (set_isProcessing true);
    assign (set_adaptStatus ADAPT_STATUS.VALIDATING);
    Do (fun now c =>
          let serial :=
            if manualSerialEntered c then manualSerialNumber c else displaySerialNumber c in
          addLog ("Validating: " +:+ serial) "info" now c);
    Delay 2000;
    assign (set_adaptStatus ADAPT_STATUS.VALIDATED);
    Do (addLog "Serial validated" "success");
    Do (addLog ("MAC: " +:+ mac) "info");
    assign (set_isProcessing false);
    Exit "validateSerial" ].

Definition provisionCPE : Script :=
  [ Enter "provisionCPE";
    assign (set_isProcessing true);
    assign (set_adaptStatus ADAPT_STATUS.PROVISIONING);
    Do (addLog "Provisioning CPE..." "info");
    Delay 1000;
    Do (addLog "Creating service profile" "info");
    Delay 1500;
    Do (addLog "Configuring VLAN" "info");
    Delay 1000;
    Do (addLog "Setting QoS parameters" "info");
    Delay 1500;
    assign (set_adaptStatus ADAPT_STATUS.PROVISIONED);
    Do (addLog "CPE provisioned" "success");
    assign (set_currentStep 3);
    assign (set_isProcessing false);
    Exit "provisionCPE" ].

(** [dBm] is the integer [Math.floor(Math.random() * 10) + 18] and [mW]
    the string [(Math.random() * 2 + 1).toFixed(2)]. *)
Definition runSignalTest (dBm : Z) (mW : string) : Script :=
  [ Enter "runSignalTest";
    assign (set_isProcessing true);
    Do (addLog "Running signal test..." "info");
    Delay 2000;
    assign (set_signalStrength (Some ("-" +:+ pretty dBm +:+ " dBm")));
    assign (set_opticalPower (Some (mW +:+ " mW")));
    assign (set_connectionSpeed (Some "1 Gbps"));
    Do (fun now c =>
          addLog ("Signal: " +:+ default "" (signalStrength c)) "success" now c);
    assign (set_isProcessing false);
    Exit "runSignalTest" ].

Definition activateService : Script :=
  [ Enter "activateService";
    assign (set_isProcessing true);
    assign (set_adaptStatus ADAPT_STATUS.ACTIVATING);
    Do (addLog "Activating service..." "info");
    Delay 2000;
    Do (addLog "Enabling data path" "info");
    Delay 1500;
    Do (addLog "Verifying connectivity" "info");
    Delay 1000;
    assign (set_adaptStatus ADAPT_STATUS.ACTIVATED);
    Do (fun now c =>
          let customerContext :=
            if String.eqb (displayAccountName c) "N/A" then ""
            else " - " +:+ displayAccountName c in
          addLog ("SERVICE ACTIVATED" +:+ customerContext) "success" now c);
    assign (set_currentStep 4);
    assign (set_provisioningComplete true);
    assign (set_isProcessing false);
    Dispatch (fun c =>
      Js.ShowToastEvent "Provisioning Complete"
        (if String.eqb (displayAccountName c) "N/A"
         then "CPE provisioned and service activated"
         else "CPE provisioned and service activated for " +:+ displayAccountName c)
        "success");
    Exit "activateService" ].

(** *** Button handlers *)

(** What a barcode scan comes to: no scanner (the demo serial drawn is
    [simulatedSerial]), or a capture that settles after [duration] ms. *)
Inductive ScanOutcome :=
| ScannerUnavailable (simulatedSerial : string)
| Captured (duration : Z) (value : string)
| CaptureFailed (duration : Z) (message : string).

Inductive Handler :=
| HandleManualSerialChange (v : string)
| HandleUseManualSerial
| HandleChangeCpe
| HandleScanBarcode (scan : ScanOutcome)
| HandleStartProvisioning
| HandleStep2Actions (mac : string)
| HandleRunSignalTest (dBm : Z) (mW : string)
| HandleActivate
| HandleClose.

Definition handleUseManualSerial : Script :=
  [ Do (fun now c =>
          if (negb (String.eqb (manualSerialNumber c) "") &&
              negb (is_blank (manualSerialNumber c)))%bool
          then addLog ("CPE set: " +:+ manualSerialNumber c) "info" now
                 (set_isChangingCpe false (set_manualSerialEntered true c))
          else c) ].

Definition handleChangeCpe : Script :=
  [ assign (set_isChangingCpe true); assign (set_manualSerialNumber "") ].

Definition handleScanBarcode (scan : ScanOutcome) : Script :=
  match scan with
  | ScannerUnavailable simulatedSerial =>
      [ assign (set_manualSerialNumber simulatedSerial);
        assign (set_manualSerialEntered true);
        Do (addLog ("Simulated scan: " +:+ simulatedSerial) "success");
        Dispatch (fun _ =>
          Js.ShowToastEvent "Barcode Simulated"
            "Scanner not available - using simulated serial for demo" "info") ]
  | Captured duration value =>
      [ Delay duration;
        assign (set_manualSerialNumber value);
        assign (set_manualSerialEntered true);
        Do (addLog ("Barcode scanned: " +:+ value) "success") ]
  | CaptureFailed duration message =>
      [ Delay duration;
        Do (addLog ("Scan error: " +:+ message) "error") ]
  end.

Definition handleStep2Actions (mac : string) : Script :=
  [ Enter "handleStep2Actions" ] ++
  validateSerial mac ++
  [ Delay 500 ] ++
  provisionCPE ++
  [ Exit "handleStep2Actions" ].

Definition script (h : Handler) : Script :=
  match h with
  | HandleManualSerialChange v => [ assign (set_manualSerialNumber v) ]
  | HandleUseManualSerial => handleUseManualSerial
  | HandleChangeCpe => handleChangeCpe
  | HandleScanBarcode scan => handleScanBarcode scan
  | HandleStartProvisioning => connectToADAPT
  | HandleStep2Actions mac => handleStep2Actions mac
  | HandleRunSignalTest dBm mW => runSignalTest dBm mW
  | HandleActivate => activateService
  | HandleClose => [ Dispatch (fun _ => Js.CloseActionScreenEvent) ]
  end.

(** *** The timer queue

    The engine runs one task at a time.  A task runs a script up to its
    next [Delay], which parks the rest of the script on a timer.  Every
    statement executed is recorded in [history] with the clock and the
    component as it then is. *)

Inductive Step :=
| Started
| Ran
| Entered (fn : string)
| Exited (fn : string).

Record Obs := {
  at_time : Z;
  what : Step;
  snapshot : Component
}.

Record Loop := {
  now : Z;
  comp : Component;
  timers : list (Z * Script);
  history : list Obs;
  dispatched : list Js.Event
}.

Definition boot (c : Component) : Loop :=
  {| now := 0; comp := c; timers := [];
     history := [ {| at_time := 0; what := Started; snapshot := c |} ];
     dispatched := [] |}.

Definition observe (w : Step) (c : Component) (l : Loop) : Loop :=
  {| now := now l; comp := c; timers := timers l;
     history := history l ++ [ {| at_time := now l; what := w; snapshot := c |} ];
     dispatched := dispatched l |}.

(** Timers fire by due time; equal due times fire in creation order. *)
Fixpoint insert_timer (due : Z) (k : Script) (ts : list (Z * Script)) : list (Z * Script) :=
  match ts with
  | [] => [ (due, k) ]
  | (d, k0) :: rest =>
      if (due <? d)%Z then (due, k) :: ts else (d, k0) :: insert_timer due k rest
  end.

Fixpoint exec (k : Script) (l : Loop) : Loop :=
  match k with
  | [] => l
  | Do f :: k' => exec k' (observe Ran (f (now l) (comp l)) l)
  | Dispatch e :: k' =>
      exec k' {| now := now l; comp := comp l; timers := timers l;
                 history := history l;
                 dispatched := dispatched l ++ [ e (comp l) ] |}
  | Delay ms :: k' =>
      {| now := now l; comp := comp l;
         timers := insert_timer (now l + ms) k' (timers l);
         history := history l; dispatched := dispatched l |}
  | Enter fn :: k' => exec k' (observe (Entered fn) (comp l) l)
  | Exit fn :: k' => exec k' (observe (Exited fn) (comp l) l)
  end.

(** The earliest timer fires: the clock is at its due time and the parked
    script resumes. *)
Definition fire (l : Loop) : Loop :=
  match timers l with
  | [] => l
  | (due, k) :: rest =>
      exec k {| now := due; comp := comp l; timers := rest;
                history := history l; dispatched := dispatched l |}
  end.

(** Statements still parked on timers (plus one per timer): every firing
    lowers it, so it bounds the firings left. *)
Definition work (l : Loop) : nat :=
  list_sum (map (fun t => S (length (snd t))) (timers l)).

Fixpoint fire_due (fuel : nat) (t : Z) (l : Loop) : Loop :=
  match fuel with
  | O => l
  | S n =>
      match timers l with
      | (due, _) :: _ => if (due <=? t)%Z then fire_due n t (fire l) else l
      | [] => l
      end
  end.

(** The handler [h] is invoked at clock [t]: timers due by then have fired. *)
Definition click (h : Handler) (t : Z) (l : Loop) : Loop :=
  let l1 := fire_due (work l) t l in
  exec (script h)
    {| now := t; comp := comp l1; timers := timers l1;
       history := history l1; dispatched := dispatched l1 |}.

Fixpoint drain (fuel : nat) (l : Loop) : Loop :=
  match fuel with
  | O => l
  | S n =>
      match timers l with
      | [] => l
      | _ :: _ => drain n (fire l)
      end
  end.

(** Time passes until no timer is left. *)
Definition settle (l : Loop) : Loop := drain (work l) l.


(** Each handler runs to completion before the next is invoked. *)
Definition run_each (hs : list Handler) (l : Loop) : Loop :=
  fold_left (fun l h => settle (click h (now l) l)) hs l.

Definition steps_of (l : Loop) : list Z :=
  map (fun o => currentStep (snapshot o)) (history l).

Definition marks_of (l : Loop) : list (Z * Step) :=
  map (fun o => (at_time o, what o))
    (List.filter (fun o => match what o with Ran => false | _ => true end) (history l)).

(** Consecutive values never decrease and never increase by more than one. *)
Fixpoint stepwise (xs : list Z) : bool :=
  match xs with
  | x :: ((y :: _) as rest) => ((x <=? y) && (y <=? x + 1) && stepwise rest)%Z%bool
  | _ => true
  end.

(** Consecutive duplicates removed: the values visited, in order. *)
Fixpoint visited (xs : list Z) : list Z :=
  match xs with
  | x :: ((y :: _) as rest) => if (x =? y)%Z then visited rest else x :: visited rest
  | _ => xs
  end.

(** A loop with nothing pending, at clock [t]. *)
Definition idle (c : Component) (t : Z) : Loop :=
  {| now := t; comp := c; timers := []; history := []; dispatched := [] |}.

(** Modelled from the spec: the HTML template of the wizard is not among the
    sources.  It is taken to show each of the "four fixed steps" as a panel
    at its own step, with the getters the class computes for it: the start
    button at step 1 unless [disableStartProvisioning], the validate and
    provision button at step 2, the signal test and the activate button at
    step 3; the serial number controls and the close button everywhere. *)
Definition offered (c : Component) (h : Handler) : bool :=
  match h with
  | HandleStartProvisioning => (isStep1 c && negb (disableStartProvisioning c))%bool
  | HandleStep2Actions _ => isStep2 c
  | HandleRunSignalTest _ _ => isStep3 c
  | HandleActivate => isStep3 c
  | _ => true
  end.

(** Handlers invoked one after the other, each [wait] ms after the previous
    one has run to completion and only where it is offered; [None] when a
    handler is not offered at its turn. *)
Fixpoint run_offered (hs : list (Z * Handler)) (l : Loop) : option Loop :=
  match hs with
  | [] => Some l
  | (wait, h) :: rest =>
      if offered (comp l) h
      then run_offered rest (settle (click h (now l + wait) l))
      else None
  end.

(** The messages of the log, oldest first. *)
Definition log_messages (c : Component) : list string :=
  map message (provisioningLog c).

(** *** Vocabulary for reasoning about runs *)

(** The loop [l] with the observations [h] put before its history. *)
Definition prepend (h : list Obs) (l : Loop) : Loop :=
  {| now := now l; comp := comp l; timers := timers l;
     history := h ++ history l; dispatched := dispatched l |}.

(** The loop [l] with its history forgotten. *)
Definition forget (l : Loop) : Loop :=
  {| now := now l; comp := comp l; timers := timers l;
     history := []; dispatched := dispatched l |}.

(** Every statement of the instruction takes a component to one related to
    it by [Q]. *)
Definition respects (Q : Component -> Component -> Prop) (i : Instr) : Prop :=
  match i with
  | Do f => forall now c, Q c (f now c)
  | _ => True
  end.

(** Every script parked on a timer is made of such statements. *)
Definition parked_respect (Q : Component -> Component -> Prop) (l : Loop) : Prop :=
  Forall (fun t => Forall (respects Q) (snd t)) (timers l).

(** The step is one of the four. *)
Definition step_in_range (c : Component) : Prop := (1 <= currentStep c <= 4)%Z.

(** Handler invocations at arbitrary clock times, with no wait for
    completion in between and none at the end. *)
Definition clicks (cs : list (Z * Handler)) (l : Loop) : Loop :=
  fold_left (fun l th => click (snd th) (fst th) l) cs l.

(** Consecutive components of the list are related by [R]. *)
Fixpoint linked (R : Component -> Component -> Prop) (xs : list Component) : Prop :=
  match xs with
  | x :: ((y :: _) as rest) => R x y /\ linked R rest
  | _ => True
  end.

(** From one observation to the next the step stays or goes up by one. *)
Definition step_up (c c' : Component) : Prop :=
  (currentStep c <= currentStep c' <= currentStep c + 1)%Z.

(** The steps a handler can be in while it runs, when it is invoked where
    it is offered at step [v]: its own step and the one it leads to. *)
Definition steps_while (h : Handler) (v : Z) (c : Component) : Prop :=
  match h with
  | HandleStartProvisioning => (1 <= currentStep c <= 2)%Z
  | HandleStep2Actions _ => (2 <= currentStep c <= 3)%Z
  | HandleActivate => (3 <= currentStep c <= 4)%Z
  | _ => currentStep c = v
  end.

(** What a statement of handler [h] does to a component in [steps_while]. *)
Definition climbs (h : Handler) (v : Z) (c c' : Component) : Prop :=
  steps_while h v c -> steps_while h v c' /\ step_up c c'.

(** A loop at rest whose history is a chain of [step_up] ending in the
    component as it is. *)
Definition at_rest_in_order (l : Loop) : Prop :=
  timers l = [] /\
  step_in_range (comp l) /\
  linked step_up (map snapshot (history l)) /\
  (exists o, last (history l) = Some o /\ snapshot o = comp l).

Definition Step_eqb (a b : Step) : bool :=
  match a, b with
  | Started, Started => true
  | Ran, Ran => true
  | Entered x, Entered y => String.eqb x y
  | Exited x, Exited y => String.eqb x y
  | _, _ => false
  end.

(** The component as it was at each observation of kind [w]. *)
Definition observed_at (w : Step) (l : Loop) : list Component :=
  map snapshot (List.filter (fun o => Step_eqb (what o) w) (history l)).

(** The invariant of a run started from [c0], for a relation [Q]. *)
Definition kept (Q : Component -> Component -> Prop) (c0 : Component) (l : Loop) : Prop :=
  Q c0 (comp l) /\
  Forall (fun o => Q c0 (snapshot o)) (history l) /\
  parked_respect Q l.

Definition range_kept (c c' : Component) : Prop := step_in_range c -> step_in_range c'.

(** What no statement undoes: the log only grows, the wire data is not
    written, and the completion flag is not cleared. *)
Definition never_undone (c c' : Component) : Prop :=
  provisioningLog c `prefix_of` provisioningLog c' /\
  serviceAppointment c' = serviceAppointment c /\
  workOrder c' = workOrder c /\
  (provisioningComplete c = true -> provisioningComplete c' = true).

(** The invariant while handler [h], invoked at step [v], runs alone. *)
Definition climbing (h : Handler) (v : Z) (l : Loop) : Prop :=
  steps_while h v (comp l) /\
  linked step_up (map snapshot (history l)) /\
  (exists o, last (history l) = Some o /\ snapshot o = comp l) /\
  Forall (fun t => Forall (respects (climbs h v)) (snd t)) (timers l).

(** *** Further getters *)



Definition isManualSerialEmpty (c : Component) : bool :=
  (String.eqb (manualSerialNumber c) "" || is_blank (manualSerialNumber c))%bool.


(** Sample wire data. *)
Definition demo_appointment : option ServiceAppointment :=
  Some {| AppointmentNumber := Some "SA-0042"; AccountName := Some "Haven Enterprises" |}.

Definition demo_workOrder : option WorkOrder :=
  Some {| WorkOrderNumber := Some "00001027"; AssetId := Some "02i000000000001";
          AssetSerialNumber := Some "ONT-2024-HAVEN-00077" |}.

End CpeProvisioning.

(** ** Building asset map: floors, layers, selection and grouping *)

Module BuildingAssetMapViews.

Import BuildingAssetMap.

(** *** Selecting an asset *)

Definition handleMapAssetClick (assetId : string) (c : Component) : Component :=
  match findAssetById c assetId with
  | Some a => set_showAssetDetail true (set_selectedAsset (Some a) c)
  | None => c
  end.

(** [selectedMarkerValue] is [event.detail.selectedMarkerValue]. *)
Definition handleMarkerSelect (selectedMarkerValue : option string) (c : Component) :
  Component :=
  match Js.truthy selectedMarkerValue with
  | Some v =>
      if String.eqb v "data-center" then c
      else match findAssetById c v with
           | Some a => set_showAssetDetail true (set_selectedAsset (Some a) c)
           | None => c
           end
  | None => c
  end.

(** *** Floors *)

Definition toggle_floor (f : LoadedFloor) : LoadedFloor :=
  {| floor_source :=
       {| floor := floor (floor_source f); floorLabel := floorLabel (floor_source f);
          isExpanded := negb (isExpanded (floor_source f));
          assets := assets (floor_source f) |};
     loaded_assets := loaded_assets f |}.

(** [handleFloorToggle]; [floorIndex] is [parseInt(dataset.index)], [None]
    when that is [NaN] or negative (no index is strictly equal to it). *)
Definition handleFloorToggle (floorIndex : option nat) (c : Component) : Component :=
  set_assetsByFloor
    (imap (fun idx f =>
             match floorIndex with
             | Some i => if Nat.eqb idx i then toggle_floor f else f
             | None => f
             end)
          (assetsByFloor c)) c.

Definition totalAssetCount (c : Component) : nat :=
  fold_left (fun sum f => sum + length (loaded_assets f)) (assetsByFloor c) 0.

Definition activeAssetCount (c : Component) : nat :=
  fold_left
    (fun sum f =>
       sum + length (List.filter (fun a => String.eqb (asset_status (source a)) "Active")
                                 (loaded_assets f)))
    (assetsByFloor c) 0.

Definition warningAssetCount (c : Component) : nat :=
  fold_left
    (fun sum f =>
       sum + length (List.filter (fun a => String.eqb (asset_status (source a)) "Warning")
                                 (loaded_assets f)))
    (assetsByFloor c) 0.

(** *** GIS layers *)

Record Layer := {
  layer_id : string;
  layer_name : string;
  visible : bool;
  color : string;
  layer_type : string
}.

(** The field initialiser of [gisLayers]. *)
Definition GIS_LAYERS : list Layer :=
  [ {| layer_id := "backbone"; layer_name := "Fiber Backbone"; visible := true;
       color := "#2563eb"; layer_type := "line" |};
    {| layer_id := "distribution"; layer_name := "Distribution"; visible := true;
       color := "#16a34a"; layer_type := "line" |};
    {| layer_id := "zones"; layer_name := "Facility Zones"; visible := true;
       color := "#7c3aed"; layer_type := "polygon" |};
    {| layer_id := "assets"; layer_name := "Assets"; visible := true;
       color := "#f97316"; layer_type := "marker" |} ].

(** [handleLayerToggle] on the [gisLayers] field, with
    [layerId = event.target.dataset.layer] and [checked = event.target.checked]. *)
Definition handleLayerToggle (layerId : string) (checked : bool) (gisLayers : list Layer) :
  list Layer :=
  map (fun l =>
         if String.eqb (layer_id l) layerId
         then {| layer_id := layer_id l; layer_name := layer_name l; visible := checked;
                 color := color l; layer_type := layer_type l |}
         else l)
      gisLayers.

(** [isLayerVisible(layerId)], also what [find(...)?.visible ?? true] gives. *)
Definition isLayerVisible (gisLayers : list Layer) (layerId : string) : bool :=
  match List.find (fun l => String.eqb (layer_id l) layerId) gisLayers with
  | Some l => visible l
  | None => true
  end.

Definition showBackbone (gisLayers : list Layer) : bool := isLayerVisible gisLayers "backbone".
Definition showDistribution (gisLayers : list Layer) : bool :=
  isLayerVisible gisLayers "distribution".
Definition showDrop (gisLayers : list Layer) : bool := isLayerVisible gisLayers "drop".
Definition showSplice (gisLayers : list Layer) : bool := isLayerVisible gisLayers "splice".
Definition showAssets (gisLayers : list Layer) : bool := isLayerVisible gisLayers "assets".

Definition dropClass (gisLayers : list Layer) : string :=
  if showDrop gisLayers then "layer-drop" else "layer-drop layer-hidden".

Definition spliceClass (gisLayers : list Layer) : string :=
  if showSplice gisLayers then "layer-splice" else "layer-splice layer-hidden".

(** A sequence of toggles, oldest first. *)
Definition toggles (ts : list (string * bool)) (gisLayers : list Layer) : list Layer :=
  fold_left (fun ls t => handleLayerToggle (fst t) (snd t) ls) ts gisLayers.

(** *** Attributes grouped by category *)

Record Group := {
  group_name : string;
  group_attributes : list ProcessedAttribute;
  hasWarning : bool
}.

(** [attr.category || 'General'] *)
Definition category_of (a : ProcessedAttribute) : string :=
  Js.or_default (Some (category (attr a))) "General".

Definition abnormal (a : ProcessedAttribute) : bool :=
  negb (String.eqb (status a) "normal").

(** One turn of the [forEach]: [groups] is a plain object, so a category
    named like a member of [Object.prototype] finds that member, no group
    is created, and pushing to its missing [attributes] throws ([None]). *)
Definition group_step (groups : option (gmap string Group)) (a : ProcessedAttribute) :
  option (gmap string Group) :=
  m ← groups;
  match m !! category_of a with
  | Some g =>
      Some (<[ category_of a :=
                 {| group_name := group_name g;
                    group_attributes := group_attributes g ++ [ a ];
                    hasWarning := (hasWarning g || abnormal a)%bool |} ]> m)
  | None =>
      if bool_decide (category_of a ∈ SaStatusUpdate.OBJECT_PROTOTYPE_KEYS) then None
      else Some (<[ category_of a :=
                      {| group_name := category_of a;
                         group_attributes := [ a ];
                         hasWarning := abnormal a |} ]> m)
  end.

(** The groups the [groupedAttributes] getter builds, as the object it
    builds them in (the order in which [Object.values] lists them is left
    out); [None] when building them throws. *)
Definition grouped (attrs : list ProcessedAttribute) : option (gmap string Group) :=
  fold_left group_step attrs (Some ∅).

Definition groupedAttributes (c : Component) : option (gmap string Group) :=
  match selectedAsset c ≫= processed with
  | Some attrs => grouped attrs
  | None => Some ∅
  end.

(** The group the attributes of category [k] make, if there are any. *)
Definition group_of (k : string) (attrs : list ProcessedAttribute) : option Group :=
  match List.filter (fun a => String.eqb (category_of a) k) attrs with
  | [] => None
  | members =>
      Some {| group_name := k; group_attributes := members;
              hasWarning := existsb abnormal members |}
  end.

(** The clamped percentage both components draw a bar with. *)
Definition clamp_percentage (p : float) : float := Js.Math_max 0 (Js.Math_min 100 p).

(** An attribute whose category is not named like a member of
    [Object.prototype]. *)
Definition plain (a : ProcessedAttribute) : Prop :=
  category_of a ∉ SaStatusUpdate.OBJECT_PROTOTYPE_KEYS.

End BuildingAssetMapViews.

(** ** The telemetry classification, as the specification words it *)

Module ThreeWay.

(** "Given a reading value and a closed range [min, max], status is
    critical if value < min, warning if value > max, else normal." *)
Definition classify (value min max : float) : string :=
  if Js.lt value min then "critical"
  else if Js.gt value max then "warning"
  else "normal".

(** A reading of the predictive maintenance component, seen as an attribute
    of the building asset map (a reading carries no category). *)
Definition as_attribute (r : PredictiveMaintenance.Reading) : BuildingAssetMap.Attribute :=
  BuildingAssetMap.mkAttr
    (PredictiveMaintenance.name r) (PredictiveMaintenance.value r)
    (PredictiveMaintenance.minThreshold r) (PredictiveMaintenance.maxThreshold r)
    (PredictiveMaintenance.unit r) "".

(** The status the building asset map computes for a reading. *)
Definition computed_status (r : PredictiveMaintenance.Reading) : string :=
  BuildingAssetMap.status (BuildingAssetMap.processAttribute (as_attribute r)).

(** The status class the predictive maintenance component displays for it. *)
Definition displayed_class (r : PredictiveMaintenance.Reading) : string :=
  PredictiveMaintenance.statusClass (PredictiveMaintenance.display_reading r).

(** The two components agree on a reading. *)
Definition agree (r : PredictiveMaintenance.Reading) : Prop :=
  displayed_class r = "reading-status " +:+ computed_status r.

(** The status delivered with a reading, as the predictive maintenance
    helpers read it: anything but [critical] and [warning] counts as normal. *)
Definition delivered_status (r : PredictiveMaintenance.Reading) : string :=
  if String.eqb (PredictiveMaintenance.status r) "critical" then "critical"
  else if String.eqb (PredictiveMaintenance.status r) "warning" then "warning"
  else "normal".

(** The UPS charge-cycle reading: inside its range, delivered as a warning. *)
Definition charge_cycles : PredictiveMaintenance.Reading :=
  {| PredictiveMaintenance.name := "Charge Cycles";
     PredictiveMaintenance.value := 847;
     PredictiveMaintenance.unit := "cycles";
     PredictiveMaintenance.minThreshold := 0;
     PredictiveMaintenance.maxThreshold := 850;
     PredictiveMaintenance.status := "warning" |}.

End ThreeWay.

(** * Properties *)

(** Unfolds the handler monad so that a handler applied to a state computes. *)
Ltac js_unfold :=
  unfold Js.try_finally, Js.try_catch, Js.await, Js.dispatchToast, Js.emit,
    Js.modify, Js.get, Js.ret, Js.throw, mbind, mret, Js.M_bind, Js.M_ret, Js.bind in *.

(** ** Telemetry thresholds *)

Section Telemetry.

Import BuildingAssetMap.

Lemma processAttribute_status_cases (a : Attribute) :
  status (processAttribute a) =
    if Js.lt (value a) (minThreshold a) then "critical"
    else if Js.gt (value a) (maxThreshold a) then "warning"
    else "normal".
Proof.
  unfold processAttribute.
  destruct (Js.lt (value a) (minThreshold a)); [reflexivity|].
  destruct (Js.gt (value a) (maxThreshold a)); reflexivity.
Qed.

(** C1. For every attribute the classifier reports [critical] exactly when
    [value < minThreshold], [warning] exactly when [value > maxThreshold]
    and not [value < minThreshold], and [normal] in every other case. *)
Theorem processAttribute_three_way (a : Attribute) :
  (status (processAttribute a) = "critical" <->
     Js.lt (value a) (minThreshold a) = true) /\
  (status (processAttribute a) = "warning" <->
     Js.gt (value a) (maxThreshold a) = true /\
     Js.lt (value a) (minThreshold a) = false) /\
  (status (processAttribute a) = "normal" <->
     Js.lt (value a) (minThreshold a) = false /\
     Js.gt (value a) (maxThreshold a) = false).
Proof.
  rewrite processAttribute_status_cases.
  destruct (Js.lt (value a) (minThreshold a)), (Js.gt (value a) (maxThreshold a));
    repeat split; intros; try discriminate; try tauto;
    match goal with H : _ /\ _ |- _ => destruct H; discriminate end.
Qed.

(** The three outcomes are the only ones, and the class and icon follow
    the status. *)
Lemma processAttribute_status_class (a : Attribute) :
  statusClass (processAttribute a) = "attr-" +:+ status (processAttribute a).
Proof.
  unfold processAttribute.
  destruct (Js.lt (value a) (minThreshold a)); [reflexivity|].
  destruct (Js.gt (value a) (maxThreshold a)); reflexivity.
Qed.

(** A reading that is not a number is never out of range. *)
Example processAttribute_nan :
  status (processAttribute (mkAttr "x" PrimFloat.nan 0 1 "" "")) = "normal".
Proof. reflexivity. Qed.

Example processAttribute_uptime :
  status (processAttribute (mkAttr "Uptime" 98.2 99 100 "%" "Availability")) = "critical".
Proof. reflexivity. Qed.

End Telemetry.

(** ** The same classification in two components? *)

Section TwoComponents.

Import ThreeWay.

Lemma computed_status_classify (r : PredictiveMaintenance.Reading) :
  computed_status r =
    classify (PredictiveMaintenance.value r) (PredictiveMaintenance.minThreshold r)
             (PredictiveMaintenance.maxThreshold r).
Proof.
  unfold computed_status, classify.
  rewrite processAttribute_status_cases. reflexivity.
Qed.

Lemma displayed_class_delivered (r : PredictiveMaintenance.Reading) :
  displayed_class r = "reading-status " +:+ delivered_status r.
Proof.
  unfold displayed_class, delivered_status. cbn.
  unfold PredictiveMaintenance.getReadingStatusClass.
  destruct (String.eqb (PredictiveMaintenance.status r) "critical"); [reflexivity|].
  destruct (String.eqb (PredictiveMaintenance.status r) "warning"); reflexivity.
Qed.

(** C5, as stated, fails: the predictive maintenance component shows the
    charge-cycle reading as a warning while the building asset map computes
    [normal] for the same value and range. *)
Lemma charge_cycles_disagree : ~ agree charge_cycles.
Proof. unfold agree. vm_compute. discriminate. Qed.

(** C5, amended.  The building asset map computes the three-way
    classification of the value against its range; the predictive
    maintenance component evaluates no threshold and displays the status
    delivered with the reading.  The two agree on every reading whose
    delivered status is the three-way classification of its value. *)
Theorem two_components_agree_on_classified_readings (r : PredictiveMaintenance.Reading) :
  computed_status r =
    classify (PredictiveMaintenance.value r) (PredictiveMaintenance.minThreshold r)
             (PredictiveMaintenance.maxThreshold r) /\
  displayed_class r = "reading-status " +:+ delivered_status r /\
  (PredictiveMaintenance.status r =
     classify (PredictiveMaintenance.value r) (PredictiveMaintenance.minThreshold r)
              (PredictiveMaintenance.maxThreshold r) ->
   agree r).
Proof.
  split; [apply computed_status_classify|].
  split; [apply displayed_class_delivered|].
  intros Hst. unfold agree.
  rewrite displayed_class_delivered, computed_status_classify.
  unfold delivered_status. rewrite Hst. unfold classify.
  destruct (Js.lt _ _); [reflexivity|].
  destruct (Js.gt _ _); reflexivity.
Qed.

(** The battery-health reading of the UPS, delivered as [critical]. *)
Lemma two_components_agree_witness :
  agree {| PredictiveMaintenance.name := "Battery Health";
           PredictiveMaintenance.value := 68;
           PredictiveMaintenance.unit := "%";
           PredictiveMaintenance.minThreshold := 70;
           PredictiveMaintenance.maxThreshold := 100;
           PredictiveMaintenance.status := "critical" |}.
Proof.
  apply (two_components_agree_on_classified_readings
           {| PredictiveMaintenance.name := "Battery Health";
              PredictiveMaintenance.value := 68;
              PredictiveMaintenance.unit := "%";
              PredictiveMaintenance.minThreshold := 70;
              PredictiveMaintenance.maxThreshold := 100;
              PredictiveMaintenance.status := "critical" |}).
  reflexivity.
Defined.

End TwoComponents.

(** ** The hardcoded dataset *)

Section Dataset.

Import BuildingAssetMap.

(** The handler does nothing at all exactly when its guard refuses. *)
Lemma handleAddInspectionWorkPlan_refused (created : Js.Outcome string) (c : Component) :
  handleAddInspectionWorkPlan created c = (Js.Ok tt, c, []) <->
  inspection_refused c = true.
Proof.
  unfold handleAddInspectionWorkPlan. js_unfold.
  destruct (inspection_refused c) eqn:Href.
  - split; [reflexivity|]. intros _. reflexivity.
  - split; [|discriminate]. intros H. exfalso.
    destruct (recordId_missing c).
    + cbn in H. discriminate.
    + destruct (option_bind _ _ warningAttributes (selectedAsset c));
        destruct created; cbn in H; discriminate.
Qed.

Lemma selectedAsset_after_click (rid : option string) (assetId : string) :
  selectedAsset (handleAssetClick assetId (connectedCallback (initial rid))) =
  findAssetById_in (map load_floor HAVEN_FLOORS) assetId.
Proof.
  unfold handleAssetClick, findAssetById, connectedCallback, loadHavenDataCenterAssets.
  cbn [assetsByFloor set_assetsByFloor initial].
  destruct (findAssetById_in _ _); reflexivity.
Qed.

Lemma all_assets_loaded (rid : option string) :
  all_assets (connectedCallback (initial rid)) =
  map load_asset
    [ asset_haven_olt_001; asset_haven_olt_002; asset_sea_002; asset_sea_003;
      asset_sea_004; asset_sea_005; asset_sea_006; asset_sea_007; asset_sea_008;
      asset_sea_009; asset_sea_010; asset_haven_ups_001; asset_sea_012;
      asset_sea_013; asset_sea_014 ].
Proof. reflexivity. Qed.

(** C9. In the loaded dataset an asset is marked [Warning] if and only if
    [hasWarnings] is true, so the inspection work plan action goes ahead
    exactly for the assets marked [Warning]. *)
Theorem dataset_warning_iff_hasWarnings (rid : option string) :
  Forall warning_iff_flagged (all_assets (connectedCallback (initial rid))).
Proof.
  rewrite all_assets_loaded. cbn [map].
  repeat (apply Forall_cons; split;
    [ split;
      [ vm_compute; split; intros H; first [reflexivity | discriminate H]
      | intros rid'; unfold inspection_refused; rewrite selectedAsset_after_click;
        vm_compute; split; intros H; first [reflexivity | discriminate H] ]
    | ]).
  constructor.
Qed.

Lemma dataset_size (rid : option string) :
  length (all_assets (connectedCallback (initial rid))) = 15%nat.
Proof. reflexivity. Qed.

End Dataset.

(** ** Service appointment status workflow *)

Section StatusWorkflow.

Import SaStatusUpdate TransitionTable.

Lemma STATUS_CONFIG_own (k : string) (c : StatusConfig) :
  STATUS_CONFIG !! k = Some c -> In k states /\ next c = allowed_next k.
Proof.
  intros H. apply elem_of_list_to_map_2 in H.
  repeat (apply elem_of_cons in H; destruct H as [H|H];
          [injection H as -> ->; split; [cbn; tauto | reflexivity]|]).
  apply elem_of_nil in H. destruct H.
Qed.

Lemma STATUS_CONFIG_miss (k : string) :
  ~ In k states -> STATUS_CONFIG !! k = None.
Proof.
  intros H. apply not_elem_of_list_to_map_1.
  intros Hin. apply H. apply list_elem_of_In in Hin. exact Hin.
Qed.

Lemma STATUS_CONFIG_hit (k : string) :
  In k states -> exists c, STATUS_CONFIG !! k = Some c /\ next c = allowed_next k.
Proof.
  intros H. cbn in H.
  repeat (destruct H as [<-|H]; [eexists; split; [vm_compute; reflexivity | reflexivity]|]).
  destruct H.
Qed.

(** C2. For every status of the table, the next statuses the component
    offers are exactly the table's, and the terminal statuses offer none
    (the getter [canUpdateStatus] is then false). *)
Theorem nextStatusOptions_equals_table (s : System) :
  In (currentStatus s) states ->
  offered_next s = Some (allowed_next (currentStatus s)) /\
  (In (currentStatus s) terminal ->
   nextStatusOptions s = Some [] /\ canUpdateStatus s = Some false).
Proof.
  intros Hin. unfold offered_next, nextStatusOptions, canUpdateStatus, statusConfig.
  cbn in Hin.
  repeat (destruct Hin as [<-|Hin];
    [split; [vm_compute; reflexivity|]; cbn; intros Ht;
     repeat (destruct Ht as [Ht|Ht]; [try discriminate Ht; split; vm_compute; reflexivity|]);
     destruct Ht|]).
  destruct Hin.
Qed.

Lemma nextStatusOptions_equals_table_witness :
  offered_next (opened_on "08p000000000001" "Scheduled") = Some [ "Dispatched"; "Travel" ].
Proof.
  apply (nextStatusOptions_equals_table (opened_on "08p000000000001" "Scheduled")).
  cbn. tauto.
Defined.

(** With no appointment loaded the component shows the row of [None]. *)
Example nextStatusOptions_loading :
  offered_next {| comp := initial_component "08p000000000001";
                  serviceAppointmentResult := None;
                  record_Status := Some "Travel" |} = Some [ "Scheduled" ].
Proof. reflexivity. Qed.

(** *** Statuses outside the table *)

Lemma currentStatus_eqb_false (s : System) (k : string) :
  In k states -> ~ In (currentStatus s) states -> String.eqb (currentStatus s) k = false.
Proof.
  intros Hk Hn. apply String.eqb_neq. intros Heq. apply Hn. rewrite Heq. exact Hk.
Qed.

(** X4. A status that is neither in the table nor the name of a property of
    [Object.prototype] gets the configuration of [None]: the only next
    status offered is [Scheduled], and the block button shows. *)
Lemma statusConfig_falls_back (s : System) :
  ~ In (currentStatus s) states ->
  ~ In (currentStatus s) OBJECT_PROTOTYPE_KEYS ->
  nextStatusOptions s = Some [ next_option "Scheduled" ] /\
  offered_next s = Some [ "Scheduled" ] /\
  showBlockButton s = true.
Proof.
  intros Hn Hp.
  assert (Hcfg : statusConfig s = STATUS_CONFIG_at "None").
  { unfold statusConfig, STATUS_CONFIG_at at 1.
    rewrite (STATUS_CONFIG_miss _ Hn).
    rewrite bool_decide_eq_false_2; [reflexivity|].
    intros Hin. apply Hp. apply list_elem_of_In. exact Hin. }
  unfold offered_next, nextStatusOptions, showBlockButton. rewrite Hcfg.
  rewrite !currentStatus_eqb_false by first [exact Hn | cbn; tauto].
  repeat split.
Qed.

(** C10. The fallback to the configuration of [None] misses the statuses
    named like a property of [Object.prototype]: for the status
    [constructor], which is not in the table, the lookup finds the inherited
    member, the fallback is not taken, and reading the next statuses throws
    instead of offering [Scheduled]; the block button is shown. *)
Theorem statusConfig_inherited_member :
  let s := opened_on "08p000000000001" "constructor" in
  ~ In (currentStatus s) states /\
  statusConfig s = Some (Inherited "constructor") /\
  nextStatusOptions s = None /\
  canUpdateStatus s = None /\
  showBlockButton s = true.
Proof.
  cbn zeta. split.
  - cbn. intros H. repeat (destruct H as [H|H]; [discriminate H|]). exact H.
  - repeat split; vm_compute; reflexivity.
Qed.

(** *** What the operations do to the record *)


Lemma in_sync_on_comp (f : Component -> Component) (s : System) :
  in_sync s -> in_sync (on_comp f s).
Proof. intros H. exact H. Qed.

(** The final state of an operation: the component fields aside, the record
    is untouched or has been written once. *)
Lemma perform_record (op : Operation) (s : System) :
  let s' := Js.state_of (perform op s) in
  (serviceAppointmentResult s' = serviceAppointmentResult s /\
   record_Status s' = record_Status s) \/
  (exists v,
     serviceAppointmentResult s' = serviceAppointmentResult (write_Status v s) /\
     record_Status s' = Some v /\
     match op with
     | PressNextStatus status _ => v = status
     | BlockAppointment _ _ _ _ _ => v = "Cannot Complete"
     end).
Proof.
  destruct s as [c w r]. destruct op as [status updated | reason notes chain updated rso].
  - unfold perform, handleStatusUpdate, updateAppointmentStatus, updateRecord. js_unfold.
    destruct updated; cbn; [right; eexists; repeat split | left; split; reflexivity].
  - unfold perform, handleBlockClick, loadDependentAppointments, handleBlockReasonChange,
      handleBlockNotesChange, handleConfirmBlock, handleCloseBlockModal, updateRecord.
    js_unfold.
    destruct chain as [[[|d ds]|]|e]; cbn;
      (destruct (String.eqb reason ""); cbn; [left; split; reflexivity|]);
      (destruct updated; cbn; [|left; split; reflexivity]);
      destruct rso; cbn; right; eexists; repeat split.
Qed.



(** A status offered by a button is one of the row the configuration was
    taken from. *)
Lemma offered_button_in_row (s : System) (status : string) (updated : Js.Outcome unit) :
  offered s (PressNextStatus status updated) = true ->
  In status (allowed_next (currentStatus s)) \/
  (~ In (currentStatus s) states /\ status = "Scheduled").
Proof.
  unfold offered, nextStatusOptions, statusConfig, STATUS_CONFIG_at at 1.
  destruct (STATUS_CONFIG !! currentStatus s) as [c|] eqn:Hc.
  - destruct (STATUS_CONFIG_own _ _ Hc) as [_ Hnext]. cbn.
    rewrite map_map. cbn. rewrite map_id, Hnext.
    intros H. left. apply existsb_exists in H. destruct H as [x [Hx Heq]].
    apply String.eqb_eq in Heq. subst x. exact Hx.
  - assert (Hn : ~ In (currentStatus s) states).
    { intros Hin. destruct (STATUS_CONFIG_hit _ Hin) as [c [Hc' _]]. congruence. }
    destruct (bool_decide _); cbn; [discriminate|].
    intros H. right. split; [exact Hn|].
    change (STATUS_CONFIG_at "None") with
      (Some (OwnConfig {| next := [ "Scheduled" ]; color := "#706e6b";
                          icon := "utility:clock" |})) in H.
    cbn in H. rewrite orb_false_r in H. apply String.eqb_eq in H. exact H.
Qed.

Lemma showBlockButton_not_terminal (s : System) :
  showBlockButton s = true -> ~ In (currentStatus s) terminal.
Proof.
  unfold showBlockButton. intros H Hin. cbn in Hin.
  destruct Hin as [Hin|[Hin|[Hin|[]]]]; rewrite <- Hin in H; cbn in H; discriminate.
Qed.

(** C3, as stated, fails: on an appointment that is [Scheduled] the block
    flow is offered and moves the record to [Cannot Complete], which the
    table does not allow after [Scheduled]. *)
Lemma block_leaves_the_table :
  let s := opened_on "08p000000000001" "Scheduled" in
  let op := BlockAppointment "Access Issue" "" (Js.Resolved None) (Js.Resolved tt)
              (Js.Resolved {| rsoCount := 1 |}) in
  in_sync s /\ offered s op = true /\ ~ along_table s op.
Proof.
  cbn zeta. split; [eexists; split; reflexivity|]. split; [reflexivity|].
  unfold along_table. intros [H | [status [H Hin]]].
  - vm_compute in H. discriminate H.
  - vm_compute in H. injection H as <-.
    cbn in Hin. destruct Hin as [Hin|[Hin|[]]]; discriminate Hin.
Qed.



(** Every button press on a status of the table goes along the table. *)
Corollary buttons_follow_table (s : System) (status : string) (updated : Js.Outcome unit) :
  In (currentStatus s) states ->
  offered s (PressNextStatus status updated) = true ->
  along_table s (PressNextStatus status updated).
Proof.
  intros Hin Hop. unfold along_table.
  destruct (perform_record (PressNextStatus status updated) s)
    as [[_ Hrec] | [v [_ [Hrec Hv]]]]; [left; exact Hrec|].
  right. subst v. exists status. split; [exact Hrec|].
  destruct (offered_button_in_row _ _ _ Hop) as [H|[H _]]; [exact H|contradiction].
Qed.

(** *** The block flow is not atomic *)



End StatusWorkflow.

(** ** The provisioning wizard *)

Section Wizard.

Import CpeProvisioning.
Local Open Scope Z_scope.

(** *** Runs do not depend on the history accumulated so far *)

Lemma exec_prepend (k : Script) (h : list Obs) (l : Loop) :
  exec k (prepend h l) = prepend h (exec k l).
Proof.
  revert l. induction k as [|i k IH]; intros l; [reflexivity|].
  destruct i as [f|e|ms|fn|fn]; cbn [exec].
  - rewrite <- IH. f_equal. unfold observe, prepend. cbn. rewrite app_assoc. reflexivity.
  - rewrite <- IH. reflexivity.
  - reflexivity.
  - rewrite <- IH. f_equal. unfold observe, prepend. cbn. rewrite app_assoc. reflexivity.
  - rewrite <- IH. f_equal. unfold observe, prepend. cbn. rewrite app_assoc. reflexivity.
Qed.

Lemma fire_prepend (h : list Obs) (l : Loop) : fire (prepend h l) = prepend h (fire l).
Proof.
  unfold fire. cbn [timers prepend].
  destruct (timers l) as [|[due k] rest]; [reflexivity|].
  rewrite <- exec_prepend. reflexivity.
Qed.

Lemma drain_prepend (fuel : nat) (h : list Obs) (l : Loop) :
  drain fuel (prepend h l) = prepend h (drain fuel l).
Proof.
  revert l. induction fuel as [|n IH]; intros l; [reflexivity|].
  cbn [drain timers prepend]. destruct (timers l) as [|t rest] eqn:Ht; [reflexivity|].
  rewrite fire_prepend. apply IH.
Qed.

Lemma fire_due_prepend (fuel : nat) (t : Z) (h : list Obs) (l : Loop) :
  fire_due fuel t (prepend h l) = prepend h (fire_due fuel t l).
Proof.
  revert l. induction fuel as [|n IH]; intros l; [reflexivity|].
  cbn [fire_due timers prepend]. destruct (timers l) as [|[due k] rest] eqn:Ht; [reflexivity|].
  destruct (due <=? t); [|reflexivity].
  rewrite fire_prepend. apply IH.
Qed.

Lemma settle_prepend (h : list Obs) (l : Loop) :
  settle (prepend h l) = prepend h (settle l).
Proof. unfold settle. apply drain_prepend. Qed.

Lemma click_prepend (x : Handler) (t : Z) (h : list Obs) (l : Loop) :
  click x t (prepend h l) = prepend h (click x t l).
Proof.
  unfold click. change (work (prepend h l)) with (work l).
  rewrite fire_due_prepend. rewrite <- exec_prepend. reflexivity.
Qed.

Lemma prepend_forget (l : Loop) : prepend (history l) (forget l) = l.
Proof. destruct l. unfold prepend, forget. cbn. rewrite app_nil_r. reflexivity. Qed.

(** *** Every run comes to rest *)

Lemma work_insert (due : Z) (k : Script) (ts : list (Z * Script)) :
  list_sum (map (fun t => S (length (snd t))) (insert_timer due k ts)) =
  (S (length k) + list_sum (map (fun t => S (length (snd t))) ts))%nat.
Proof.
  induction ts as [|[d k0] rest IH]; [reflexivity|].
  assert (Hc : forall a l, list_sum (a :: l) = (a + list_sum l)%nat) by reflexivity.
  cbn [insert_timer]. destruct (due <? d); [reflexivity|].
  cbn [map snd]. rewrite !Hc, IH. cbn [snd]. lia.
Qed.

Lemma work_exec (k : Script) (l : Loop) :
  (work (exec k l) <= length k + work l)%nat.
Proof.
  revert l. induction k as [|i k IH]; intros l; [cbn [exec length]; lia|].
  destruct i as [f|e|ms|fn|fn]; cbn [exec length].
  - etransitivity; [apply IH|]. change (work (observe _ _ l)) with (work l). lia.
  - etransitivity; [apply IH|].
    match goal with |- (_ + work ?x <= _)%nat => change (work x) with (work l) end. lia.
  - unfold work. cbn [timers]. rewrite work_insert. lia.
  - etransitivity; [apply IH|]. change (work (observe _ _ l)) with (work l). lia.
  - etransitivity; [apply IH|]. change (work (observe _ _ l)) with (work l). lia.
Qed.

Lemma work_fire (l : Loop) : timers l <> [] -> (work (fire l) < work l)%nat.
Proof.
  unfold fire. destruct l as [n c ts hist d]. cbn [timers].
  destruct ts as [|[due k] rest]; [congruence|]. intros _.
  eapply Nat.le_lt_trans; [apply work_exec|].
  assert (Hc : forall a l, list_sum (a :: l) = (a + list_sum l)%nat) by reflexivity.
  unfold work. cbn [timers map snd]. rewrite Hc. lia.
Qed.

Lemma drain_quiescent (fuel : nat) (l : Loop) :
  (work l <= fuel)%nat -> timers (drain fuel l) = [].
Proof.
  revert l. induction fuel as [|n IH]; intros l Hw.
  - destruct l as [nw c ts hist d]. destruct ts as [|[due k] rest]; [reflexivity|].
    assert (Hc : forall a l, list_sum (a :: l) = (a + list_sum l)%nat) by reflexivity.
    unfold work in Hw. cbn [timers map snd] in Hw. rewrite Hc in Hw. lia.
  - cbn [drain]. destruct (timers l) as [|t rest] eqn:Ht; [exact Ht|].
    apply IH. assert (H : (work (fire l) < work l)%nat) by (apply work_fire; congruence). lia.
Qed.

Theorem settle_quiescent (l : Loop) : timers (settle l) = [].
Proof. apply drain_quiescent. lia. Qed.





(** *** Invariants of arbitrary runs

    [Q] relates a component to what a statement makes of it.  When [Q] is a
    preorder and every statement of every handler respects it, [Q] relates
    the component a run starts from to the component at every observation
    of the run, however the handlers interleave. *)

Section Respect.

Variable Q : Component -> Component -> Prop.
Hypothesis Q_refl : forall c, Q c c.
Hypothesis Q_trans : forall c1 c2 c3, Q c1 c2 -> Q c2 c3 -> Q c1 c3.
Hypothesis Q_scripts : forall h, Forall (respects Q) (script h).

Lemma Forall_insert_timer (R : Z * Script -> Prop) (due : Z) (k : Script)
  (ts : list (Z * Script)) :
  R (due, k) -> Forall R ts -> Forall R (insert_timer due k ts).
Proof.
  intros Hk Hts. induction Hts as [|[d k0] rest Hd Hrest IH]; cbn [insert_timer].
  - constructor; [exact Hk|constructor].
  - destruct (due <? d); constructor; try assumption. constructor; assumption.
Qed.

Lemma kept_observe (c0 : Component) (w : Step) (c : Component) (l : Loop) :
  kept Q c0 l -> Q c0 c -> kept Q c0 (observe w c l).
Proof.
  intros [Hc [Hh Hp]] Hq. unfold kept, observe. cbn. repeat split.
  - exact Hq.
  - apply Forall_app. split; [exact Hh|]. constructor; [exact Hq|constructor].
  - exact Hp.
Qed.

Lemma kept_exec (c0 : Component) (k : Script) (l : Loop) :
  Forall (respects Q) k -> kept Q c0 l -> kept Q c0 (exec k l).
Proof.
  revert l. induction k as [|i k IH]; intros l Hk Hl; [exact Hl|].
  apply Forall_cons in Hk. destruct Hk as [Hi Hk].
  destruct i as [f|e|ms|fn|fn]; cbn [exec].
  - apply IH; [exact Hk|]. apply kept_observe; [exact Hl|].
    destruct Hl as [Hc _]. eapply Q_trans; [exact Hc|]. apply Hi.
  - apply IH; [exact Hk|]. exact Hl.
  - destruct Hl as [Hc [Hh Hp]]. unfold kept. cbn. repeat split; try assumption.
    apply Forall_insert_timer; assumption.
  - apply IH; [exact Hk|]. apply kept_observe; [exact Hl|]. destruct Hl as [Hc _]. exact Hc.
  - apply IH; [exact Hk|]. apply kept_observe; [exact Hl|]. destruct Hl as [Hc _]. exact Hc.
Qed.

Lemma kept_fire (c0 : Component) (l : Loop) : kept Q c0 l -> kept Q c0 (fire l).
Proof.
  intros Hl. unfold fire. destruct l as [n c ts hist d].
  destruct ts as [|[due k] rest]; [exact Hl|]. cbn [timers].
  destruct Hl as [Hc [Hh Hp]]. unfold parked_respect in Hp. cbn [timers] in Hp.
  apply Forall_cons in Hp. destruct Hp as [Hk Hrest].
  apply kept_exec; [exact Hk|]. repeat split; assumption.
Qed.

Lemma kept_fire_due (c0 : Component) (fuel : nat) (t : Z) (l : Loop) :
  kept Q c0 l -> kept Q c0 (fire_due fuel t l).
Proof.
  revert l. induction fuel as [|n IH]; intros l Hl; [exact Hl|].
  cbn [fire_due]. destruct (timers l) as [|[due k] rest]; [exact Hl|].
  destruct (due <=? t); [|exact Hl]. apply IH. apply kept_fire. exact Hl.
Qed.

Lemma kept_drain (c0 : Component) (fuel : nat) (l : Loop) :
  kept Q c0 l -> kept Q c0 (drain fuel l).
Proof.
  revert l. induction fuel as [|n IH]; intros l Hl; [exact Hl|].
  cbn [drain]. destruct (timers l); [exact Hl|]. apply IH. apply kept_fire. exact Hl.
Qed.

Lemma kept_click (c0 : Component) (h : Handler) (t : Z) (l : Loop) :
  kept Q c0 l -> kept Q c0 (click h t l).
Proof.
  intros Hl. unfold click. apply kept_exec; [apply Q_scripts|].
  pose proof (kept_fire_due c0 (work l) t l Hl) as H.
  destruct H as [Hc [Hh Hp]]. repeat split; assumption.
Qed.

Lemma kept_clicks (c0 : Component) (cs : list (Z * Handler)) (l : Loop) :
  kept Q c0 l -> kept Q c0 (clicks cs l).
Proof.
  revert l. induction cs as [|[t h] cs IH]; intros l Hl; [exact Hl|].
  cbn [clicks fold_left]. apply IH. apply kept_click. exact Hl.
Qed.

Lemma kept_boot (c0 : Component) : kept Q c0 (boot c0).
Proof.
  unfold kept, boot. cbn. repeat split.
  - apply Q_refl.
  - constructor; [apply Q_refl|constructor].
  - constructor.
Qed.

Lemma kept_run (c0 : Component) (cs : list (Z * Handler)) :
  kept Q c0 (settle (clicks cs (boot c0))).
Proof. apply kept_drain. apply kept_clicks. apply kept_boot. Qed.

End Respect.

(** Splits a goal about every statement of every handler into one goal per
    statement, the component and the clock introduced. *)
Ltac each_statement :=
  intros h; destruct h as [v| | |[sim|dur val|dur msg]| |mac|dBm mW| |];
  unfold script, handleStep2Actions, handleUseManualSerial, handleChangeCpe,
    handleScanBarcode, connectToADAPT, validateSerial, provisionCPE, runSignalTest,
    activateService, assign;
  cbn [app];
  repeat (apply List.Forall_cons; [|]); try apply List.Forall_nil;
  cbn [respects]; try exact I; intros now c.

Lemma scripts_keep_range : forall h, Forall (respects range_kept) (script h).
Proof.
  each_statement; unfold range_kept, step_in_range, addLog;
    repeat match goal with |- context [if ?b then _ else _] => destruct b end;
    cbn; lia.
Qed.

(** X8. Whatever handlers are invoked, at whatever clock times and however
    their delays overlap, [currentStep] is between 1 and 4 at every
    statement executed and at rest. *)
Theorem currentStep_stays_in_range (sa : option ServiceAppointment) (wo : option WorkOrder)
  (cs : list (Z * Handler)) :
  let l := settle (clicks cs (boot (initial sa wo))) in
  step_in_range (comp l) /\
  Forall (fun o => step_in_range (snapshot o)) (history l).
Proof.
  cbn zeta.
  destruct (kept_run range_kept (fun c H => H) (fun c1 c2 c3 H1 H2 H => H2 (H1 H))
              scripts_keep_range (initial sa wo) cs) as [Hc [Hh _]].
  assert (H0 : step_in_range (initial sa wo)) by (unfold step_in_range; cbn; lia).
  split; [exact (Hc H0)|].
  eapply List.Forall_impl; [|exact Hh]. intros o Ho. exact (Ho H0).
Qed.

Lemma scripts_never_undo : forall h, Forall (respects never_undone) (script h).
Proof.
  each_statement; unfold never_undone, addLog;
    repeat match goal with |- context [if ?b then _ else _] => destruct b end;
    cbn; repeat split; try reflexivity; try (intros H; exact H);
    try (apply prefix_app_r; reflexivity).
Qed.

(** X9. No run takes anything back: at every statement of every run the
    provisioning log extends the log the run started with, the wired
    appointment and work order are the ones it started with, and
    [provisioningComplete], once true, stays true. *)
Theorem runs_never_undo (c0 : Component) (cs : list (Z * Handler)) :
  let l := settle (clicks cs (boot c0)) in
  never_undone c0 (comp l) /\
  Forall (fun o => never_undone c0 (snapshot o)) (history l).
Proof.
  cbn zeta.
  assert (Hrefl : forall c, never_undone c c).
  { intros c. unfold never_undone. repeat split; try reflexivity. intros H; exact H. }
  assert (Htrans : forall c1 c2 c3,
             never_undone c1 c2 -> never_undone c2 c3 -> never_undone c1 c3).
  { intros c1 c2 c3 [Ha [Hb [Hc Hd]]] [Ha' [Hb' [Hc' Hd']]]. unfold never_undone.
    repeat split.
    - etransitivity; eassumption.
    - congruence.
    - congruence.
    - intros H. apply Hd'. apply Hd. exact H. }
  destruct (kept_run never_undone Hrefl Htrans scripts_never_undo c0 cs) as [Hc [Hh _]].
  split; assumption.
Qed.

(** *** Handlers invoked where they are offered, one after the other *)

Lemma linked_snoc (R : Component -> Component -> Prop) (xs : list Component)
  (x y : Component) :
  linked R xs -> last xs = Some x -> R x y -> linked R (xs ++ [y]).
Proof.
  induction xs as [|a [|b rest] IH]; intros Hl Hlast Hr.
  - discriminate Hlast.
  - cbn in Hlast. injection Hlast as ->. cbn. split; [exact Hr|exact I].
  - destruct Hl as [Hab Hl]. cbn [app linked]. split; [exact Hab|].
    apply IH; [exact Hl| |exact Hr]. exact Hlast.
Qed.

Lemma climbing_observe (h : Handler) (v : Z) (w : Step) (c : Component) (l : Loop) :
  climbing h v l -> steps_while h v c -> step_up (comp l) c ->
  climbing h v (observe w c l).
Proof.
  intros [Hs [Hl [[o [Ho Heq]] Hp]]] Hc Hup. unfold climbing, observe. cbn.
  repeat split.
  - exact Hc.
  - rewrite map_app. cbn [map].
    eapply linked_snoc; [exact Hl| |].
    + rewrite fmap_last, Ho. reflexivity.
    + rewrite Heq. exact Hup.
  - eexists. split; [apply last_snoc|reflexivity].
  - exact Hp.
Qed.

Lemma step_up_refl (c : Component) : step_up c c.
Proof. unfold step_up. lia. Qed.

Lemma climbing_exec (h : Handler) (v : Z) (k : Script) (l : Loop) :
  Forall (respects (climbs h v)) k -> climbing h v l -> climbing h v (exec k l).
Proof.
  revert l. induction k as [|i k IH]; intros l Hk Hl; [exact Hl|].
  apply Forall_cons in Hk. destruct Hk as [Hi Hk].
  destruct i as [f|e|ms|fn|fn]; cbn [exec].
  - apply IH; [exact Hk|]. destruct (Hi (now l) (comp l)) as [Hs Hup]; [apply Hl|].
    apply climbing_observe; assumption.
  - apply IH; [exact Hk|]. exact Hl.
  - destruct Hl as [Hs [Hl [Ho Hp]]]. unfold climbing. cbn. repeat split; try assumption.
    apply Forall_insert_timer; assumption.
  - apply IH; [exact Hk|]. apply climbing_observe; [exact Hl|apply Hl|apply step_up_refl].
  - apply IH; [exact Hk|]. apply climbing_observe; [exact Hl|apply Hl|apply step_up_refl].
Qed.

Lemma climbing_fire (h : Handler) (v : Z) (l : Loop) :
  climbing h v l -> climbing h v (fire l).
Proof.
  intros Hl. unfold fire. destruct l as [n c ts hist d].
  destruct ts as [|[due k] rest]; [exact Hl|]. cbn [timers].
  destruct Hl as [Hs [Hl [Ho Hp]]]. cbn [timers] in Hp.
  apply Forall_cons in Hp. destruct Hp as [Hk Hrest].
  apply climbing_exec; [exact Hk|]. repeat split; assumption.
Qed.

Lemma climbing_drain (h : Handler) (v : Z) (fuel : nat) (l : Loop) :
  climbing h v l -> climbing h v (drain fuel l).
Proof.
  revert l. induction fuel as [|n IH]; intros l Hl; [exact Hl|].
  cbn [drain]. destruct (timers l); [exact Hl|]. apply IH. apply climbing_fire. exact Hl.
Qed.

Lemma scripts_climb (at_step : Z) :
  forall h, Forall (respects (climbs h at_step)) (script h).
Proof.
  each_statement; unfold climbs, steps_while, step_up, addLog;
    repeat match goal with |- context [if ?b then _ else _] => destruct b end;
    cbn; lia.
Qed.

Lemma offered_steps_while (h : Handler) (c : Component) :
  offered c h = true -> steps_while h (currentStep c) c.
Proof.
  destruct h; cbn [offered steps_while]; try reflexivity;
    unfold isStep1, isStep2, isStep3; intros H;
    try (apply andb_prop in H; destruct H as [H _]); apply Z.eqb_eq in H; lia.
Qed.

Lemma steps_while_in_range (h : Handler) (v : Z) (c : Component) :
  (1 <= v <= 4) -> steps_while h v c -> step_in_range c.
Proof. unfold step_in_range. destruct h; cbn [steps_while]; lia. Qed.

Lemma at_rest_after_handler (h : Handler) (t : Z) (l : Loop) :
  at_rest_in_order l -> offered (comp l) h = true ->
  at_rest_in_order (settle (click h t l)).
Proof.
  intros [Ht [Hr [Hl Ho]]] Hoff.
  assert (Hc : climbing h (currentStep (comp l)) (settle (click h t l))).
  { apply climbing_drain. unfold click.
    destruct l as [n c ts hist d]. cbn [timers] in Ht. subst ts.
    cbn [work timers map list_sum fire_due comp history dispatched].
    apply climbing_exec; [apply scripts_climb|].
    unfold climbing. cbn. repeat split; try assumption.
    - apply offered_steps_while. exact Hoff.
    - constructor. }
  destruct Hc as [Hs [Hl' [Ho' _]]].
  unfold at_rest_in_order. repeat split; try assumption.
  - apply settle_quiescent.
  - eapply steps_while_in_range; [|exact Hs]. exact Hr.
  - eapply steps_while_in_range; [|exact Hs]. exact Hr.
Qed.

Lemma linked_stepwise (xs : list Component) :
  linked step_up xs -> stepwise (map currentStep xs) = true.
Proof.
  induction xs as [|a [|b rest] IH]; intros H; [reflexivity|reflexivity|].
  destruct H as [[H1 H2] H]. cbn [map stepwise].
  apply andb_true_intro. split; [|exact (IH H)].
  apply andb_true_intro. split; apply Z.leb_le; assumption.
Qed.

Lemma run_offered_at_rest (hs : list (Z * Handler)) (l l' : Loop) :
  at_rest_in_order l -> run_offered hs l = Some l' -> at_rest_in_order l'.
Proof.
  revert l. induction hs as [|[wait h] hs IH]; intros l Hl Hrun.
  - cbn in Hrun. injection Hrun as <-. exact Hl.
  - cbn [run_offered] in Hrun. destruct (offered (comp l) h) eqn:Hoff; [|discriminate].
    eapply IH; [|exact Hrun]. apply at_rest_after_handler; assumption.
Qed.

(** X10. When handlers are invoked one after the other, each after the
    previous one has come to rest and each at the step whose panel offers
    it, [currentStep] only ever stays or goes up by one, from the first
    statement to rest; it ends between 1 and 4 with no timer pending. *)
Theorem offered_handlers_step_in_order (sa : option ServiceAppointment)
  (wo : option WorkOrder) (hs : list (Z * Handler)) (l : Loop) :
  run_offered hs (boot (initial sa wo)) = Some l ->
  stepwise (steps_of l) = true /\ step_in_range (comp l) /\ timers l = [].
Proof.
  intros Hrun.
  assert (H0 : at_rest_in_order (boot (initial sa wo))).
  { unfold at_rest_in_order, boot, step_in_range. cbn. repeat split; try lia.
    eexists. split; reflexivity. }
  destruct (run_offered_at_rest hs _ _ H0 Hrun) as [Ht [Hr [Hl _]]].
  split; [|split; assumption].
  unfold steps_of. rewrite <- (map_map snapshot currentStep).
  apply linked_stepwise. exact Hl.
Qed.

(** Runs the loop on a symbolic component: only the loop, the scripts and
    the field accessors are unfolded; strings and clock sums stay folded. *)
Ltac run_loop :=
  lazy beta iota zeta delta
    [settle click idle boot work run_each fold_left
     exec script connectToADAPT validateSerial provisionCPE runSignalTest activateService
     handleStep2Actions handleUseManualSerial handleChangeCpe handleScanBarcode
     observe assign comp now timers history dispatched
     insert_timer fire drain fire_due map list_sum fold_right snd fst length Nat.add app
     addLog initial
     set_currentStep set_adaptStatus set_isProcessing set_provisioningComplete
     set_manualSerialNumber set_manualSerialEntered set_isChangingCpe set_signalStrength
     set_opticalPower set_connectionSpeed set_provisioningLog
     serviceAppointment workOrder currentStep adaptStatus isProcessing provisioningComplete
     manualSerialNumber manualSerialEntered isChangingCpe signalStrength opticalPower
     connectionSpeed provisioningLog
     steps_of marks_of observed_at List.filter what snapshot at_time Step_eqb].

(** The same with the clock computed, for runs at given times. *)
Ltac run_clock :=
  lazy beta iota zeta delta
    [settle click idle boot work run_each fold_left clicks
     exec script connectToADAPT validateSerial provisionCPE runSignalTest activateService
     handleStep2Actions handleUseManualSerial handleChangeCpe handleScanBarcode
     observe assign comp now timers history dispatched
     insert_timer fire drain fire_due map list_sum fold_right snd fst length Nat.add app
     addLog initial
     set_currentStep set_adaptStatus set_isProcessing set_provisioningComplete
     set_manualSerialNumber set_manualSerialEntered set_isChangingCpe set_signalStrength
     set_opticalPower set_connectionSpeed set_provisioningLog
     serviceAppointment workOrder currentStep adaptStatus isProcessing provisioningComplete
     manualSerialNumber manualSerialEntered isChangingCpe signalStrength opticalPower
     connectionSpeed provisioningLog
     steps_of marks_of observed_at List.filter what snapshot at_time Step_eqb
     Z.add Z.ltb Z.leb Z.compare Pos.compare Pos.compare_cont Pos.add
     Pos.succ Pos.add_carry CompOpp Z.pos_sub Z.succ_double Z.pred_double Z.double
     Pos.pred_double].

(** Decides the one test a script makes on the wire data. *)
Ltac split_work_order_test :=
  repeat (match goal with
          | |- context [if String.eqb (displayWorkOrderNumber ?x) ?s then _ else _] =>
              destruct (String.eqb (displayWorkOrderNumber x) s)
          end; run_loop).

Lemma offered_handlers_step_in_order_witness :
  exists l,
    run_offered [ (0, HandleStartProvisioning); (250, HandleStep2Actions "00:1A:2B:3C:4D:5E");
                  (0, HandleRunSignalTest 21 "1.73"); (900, HandleActivate) ]
      (boot (initial demo_appointment demo_workOrder)) = Some l /\
    stepwise (steps_of l) = true.
Proof.
  destruct (run_offered
              [ (0, HandleStartProvisioning); (250, HandleStep2Actions "00:1A:2B:3C:4D:5E");
                (0, HandleRunSignalTest 21 "1.73"); (900, HandleActivate) ]
              (boot (initial demo_appointment demo_workOrder))) as [l|] eqn:Hrun.
  - exists l. split; [reflexivity|].
    apply (offered_handlers_step_in_order demo_appointment demo_workOrder _ l Hrun).
  - vm_compute in Hrun. discriminate Hrun.
Defined.

(** X11. The wizard taken in its order (start, validate and provision,
    signal test, activate), each handler run to completion, visits the
    steps 1, 2, 3, 4, whatever the wired records and the generated values
    are. *)
Theorem wizard_visits_four_steps (sa : option ServiceAppointment) (wo : option WorkOrder)
  (mac mW : string) (dBm : Z) :
  visited (steps_of (run_each [ HandleStartProvisioning; HandleStep2Actions mac;
                                HandleRunSignalTest dBm mW; HandleActivate ]
                              (boot (initial sa wo)))) = [ 1; 2; 3; 4 ].
Proof. run_loop. split_work_order_test; reflexivity. Qed.

(** *** What each method comes to, run alone from any state *)

(** X12. What each asynchronous method comes to when run alone from any
    component: how long it takes, the step and the ADAPT status it ends in,
    that [isProcessing] is false again, and the events dispatched.  None of
    them looks at the step it starts from: [connectToADAPT] ends at step 2,
    the step-2 handler at step 3 and [activateService] at step 4 from any
    step, and the signal test leaves the step as it is. *)
Theorem methods_end_state (c : Component) (t dBm : Z) (mac mW : string) :
  let after h := settle (click h t (idle c t)) in
  let connected := after HandleStartProvisioning in
  let provisioned := after (HandleStep2Actions mac) in
  let tested := after (HandleRunSignalTest dBm mW) in
  let activated := after HandleActivate in
  (now connected = t + 1500 /\
   currentStep (comp connected) = 2 /\
   adaptStatus (comp connected) = ADAPT_STATUS.CONNECTED /\
   isProcessing (comp connected) = false /\
   dispatched connected = []) /\
  (now provisioned = t + 2000 + 500 + 1000 + 1500 + 1000 + 1500 /\
   currentStep (comp provisioned) = 3 /\
   adaptStatus (comp provisioned) = ADAPT_STATUS.PROVISIONED /\
   isProcessing (comp provisioned) = false /\
   dispatched provisioned = []) /\
  (now tested = t + 2000 /\
   currentStep (comp tested) = currentStep c /\
   adaptStatus (comp tested) = adaptStatus c /\
   signalStrength (comp tested) = Some ("-" +:+ pretty dBm +:+ " dBm") /\
   opticalPower (comp tested) = Some (mW +:+ " mW") /\
   connectionSpeed (comp tested) = Some "1 Gbps" /\
   isProcessing (comp tested) = false) /\
  (now activated = t + 2000 + 1500 + 1000 /\
   currentStep (comp activated) = 4 /\
   adaptStatus (comp activated) = ADAPT_STATUS.ACTIVATED /\
   provisioningComplete (comp activated) = true /\
   isProcessing (comp activated) = false /\
   exists message,
     dispatched activated = [ Js.ShowToastEvent "Provisioning Complete" message "success" ]).
Proof.
  cbn zeta. repeat split; run_loop; split_work_order_test; try reflexivity.
  eexists. reflexivity.
Qed.

(** *** Overlapping invocations *)

(** X13. Nothing guards the handlers against running again or out of turn:
    when the step-2 handler is invoked a second time while the first
    invocation is still running, and the activation is invoked before the
    second has finished, [currentStep] goes 1, 2, 3, 4 and then back to 3, where it rests with
    [provisioningComplete] true and the status PROVISIONED. *)
Theorem overlapping_invocations_step_back (sa : option ServiceAppointment)
  (wo : option WorkOrder) (mac1 mac2 : string) :
  let l := settle (clicks [ (0, HandleStartProvisioning);
                            (1500, HandleStep2Actions mac1);
                            (8500, HandleStep2Actions mac2);
                            (9000, HandleActivate) ]
                          (boot (initial sa wo))) in
  visited (steps_of l) = [ 1; 2; 3; 4; 3 ] /\
  currentStep (comp l) = 3 /\
  provisioningComplete (comp l) = true /\
  adaptStatus (comp l) = ADAPT_STATUS.PROVISIONED.
Proof.
  cbn zeta. unfold clicks.
  repeat split; run_clock;
    repeat (match goal with
            | |- context [if String.eqb (displayWorkOrderNumber ?x) ?s then _ else _] =>
                destruct (String.eqb (displayWorkOrderNumber x) s)
            end; run_clock);
    reflexivity.
Qed.

(** *** The manual serial number *)




(** *** The step-2 handler *)

(** X15. The step-2 handler runs [validateSerial] to its end, waits 500 ms,
    then runs [provisionCPE] to its end: the entries and exits come in this
    order at these clock times, the component [provisionCPE] starts from is
    the one [validateSerial] left, and the handler ends at step 3 with the
    status PROVISIONED and no timer pending. *)
Theorem step2_validates_then_provisions (c : Component) (t : Z) (mac : string) :
  let l := settle (click (HandleStep2Actions mac) t (idle c t)) in
  let validating :=
    {| id := t; message := "Validating: " +:+ displaySerialNumber c; type := "info";
       iconName := "utility:info" |} in
  let validated :=
    [ {| id := t + 2000; message := "Serial validated"; type := "success";
         iconName := "utility:success" |};
      {| id := t + 2000; message := "MAC: " +:+ mac; type := "info";
         iconName := "utility:info" |} ] in
  marks_of l =
    [ (t, Entered "handleStep2Actions");
      (t, Entered "validateSerial");
      (t + 2000, Exited "validateSerial");
      (t + 2000 + 500, Entered "provisionCPE");
      (t + 2000 + 500 + 1000 + 1500 + 1000 + 1500, Exited "provisionCPE");
      (t + 2000 + 500 + 1000 + 1500 + 1000 + 1500, Exited "handleStep2Actions") ] /\
  map (fun c' => (adaptStatus c', isProcessing c', currentStep c', provisioningLog c'))
      (observed_at (Exited "validateSerial") l) =
    [ (ADAPT_STATUS.VALIDATED, false, currentStep c,
       provisioningLog c ++ validating :: validated) ] /\
  map (fun c' => (adaptStatus c', isProcessing c', currentStep c', provisioningLog c'))
      (observed_at (Entered "provisionCPE") l) =
    [ (ADAPT_STATUS.VALIDATED, false, currentStep c,
       provisioningLog c ++ validating :: validated) ] /\
  adaptStatus (comp l) = ADAPT_STATUS.PROVISIONED /\
  currentStep (comp l) = 3 /\
  isProcessing (comp l) = false /\
  timers l = [].
Proof.
  cbn zeta. split; [vm_compute; reflexivity|].
  assert (Hlog : forall (lg : list LogEntry) (a b d : LogEntry),
             ((lg ++ [a]) ++ [b]) ++ [d] = lg ++ [a; b; d]).
  { intros. rewrite <- !app_assoc. reflexivity. }
  assert (Hser : (if manualSerialEntered c then manualSerialNumber c
                  else displaySerialNumber c) = displaySerialNumber c).
  { unfold displaySerialNumber. destruct (manualSerialEntered c); reflexivity. }
  split; [|split].
  - rewrite <- Hlog, <- Hser. vm_compute. reflexivity.
  - rewrite <- Hlog, <- Hser. vm_compute. reflexivity.
  - repeat split; vm_compute; reflexivity.
Qed.

End Wizard.

(** ** More on the status workflow *)

Section StatusWorkflowMore.

Import SaStatusUpdate TransitionTable.

(** *** Updating the status *)

Theorem status_update_outcomes (s : System) (newStatus : string) (e : Js.JsError) :
  let ok := updateAppointmentStatus newStatus (Js.Resolved tt) s in
  let ko := updateAppointmentStatus newStatus (Js.Rejected e) s in
  (Js.result_of ok = Js.Ok tt /\
   Js.events_of ok =
     [ Js.RemoteCall "updateRecord";
       Js.ShowToastEvent "Status Updated"
         ("Appointment status changed to " +:+ newStatus) "success" ] /\
   record_Status (Js.state_of ok) = Some newStatus /\
   comp (Js.state_of ok) = set_isProcessing false (comp s)) /\
  (Js.result_of ko = Js.Ok tt /\
   Js.events_of ko =
     [ Js.RemoteCall "updateRecord";
       Js.ShowToastEvent "Error" (Js.error_message e "Failed to update status") "error" ] /\
   record_Status (Js.state_of ko) = record_Status s /\
   serviceAppointmentResult (Js.state_of ko) = serviceAppointmentResult s /\
   comp (Js.state_of ko) = set_isProcessing false (comp s)).
Proof.
  destruct s as [c w r]. cbn zeta.
  unfold updateAppointmentStatus, updateRecord. js_unfold. cbn.
  repeat split.
Qed.

(** The message of an error toast is the platform's, or the fallback when
    the error carries none or an empty one. *)
Lemma error_message_cases (e : Js.JsError) (fallback : string) :
  Js.error_message e fallback =
    match Js.body_message e with
    | Some m => if String.eqb m "" then fallback else m
    | None => fallback
    end.
Proof. reflexivity. Qed.

(** *** Confirming a block *)



(** *** Opening the block dialog *)

Theorem block_dialog_loads_dependencies (s : System) (e : Js.JsError)
  (d : string) (ds : list string) :
  let failed := handleBlockClick (Js.Rejected e) s in
  let none := handleBlockClick (Js.Resolved None) s in
  let empty := handleBlockClick (Js.Resolved (Some [])) s in
  let some := handleBlockClick (Js.Resolved (Some (d :: ds))) s in
  failed =
    (Js.Ok tt, on_comp (set_showBlockModal true) s,
     [ Js.RemoteCall "getAppointmentChain"; Js.ConsoleError "Error loading dependencies:" ]) /\
  none = (Js.Ok tt, on_comp (set_showBlockModal true) s, [ Js.RemoteCall "getAppointmentChain" ]) /\
  empty = none /\
  some =
    (Js.Ok tt,
     on_comp (set_showDependencyWarning true)
       (on_comp (set_dependentAppointments (d :: ds)) (on_comp (set_showBlockModal true) s)),
     [ Js.RemoteCall "getAppointmentChain" ]).
Proof.
  cbn zeta. unfold handleBlockClick, loadDependentAppointments. js_unfold. cbn.
  repeat split.
Qed.

(** *** The table only moves forward *)

Lemma table_next_rank (x y : string) : In y (table_next x) -> rank x < rank y.
Proof.
  unfold table_next. destruct (STATUS_CONFIG !! x) as [c|] eqn:Hc; [|intros []].
  apply elem_of_list_to_map_2 in Hc.
  repeat (apply elem_of_cons in Hc; destruct Hc as [Hc|Hc];
          [injection Hc as -> ->; cbn [next In]; intros H;
           repeat (destruct H as [<-|H]; [vm_compute; lia|]); destruct H|]).
  apply elem_of_nil in Hc. destruct Hc.
Qed.

Lemma rank_le_5 (x : string) : rank x <= 5.
Proof.
  unfold rank. repeat match goal with |- context [if ?b then _ else _] => destruct b end; lia.
Qed.

Lemma is_path_length (xs : list string) (x : string) :
  is_path (x :: xs) -> length xs + rank x <= 5.
Proof.
  revert x. induction xs as [|y rest IH]; intros x H.
  - cbn. apply rank_le_5.
  - destruct H as [Hxy H]. apply table_next_rank in Hxy.
    specialize (IH y H). cbn [length]. lia.
Qed.

(** X17. The table only moves forward: a chain of statuses, each a
    configured next status of the one before, has at most six statuses; no
    status is its own next status, and no two statuses are next statuses of
    each other. *)
Theorem table_is_forward_only (xs : list string) :
  is_path xs ->
  length xs <= 6 /\
  (forall x y, In y (table_next x) -> x <> y /\ ~ In x (table_next y)).
Proof.
  intros H. split.
  - destruct xs as [|x rest]; [cbn; lia|]. pose proof (is_path_length rest x H). cbn [length]. lia.
  - intros x y Hxy. pose proof (table_next_rank _ _ Hxy) as Hr. split.
    + intros ->. lia.
    + intros Hyx. apply table_next_rank in Hyx. lia.
Qed.

Lemma table_is_forward_only_witness :
  length [ "None"; "Scheduled"; "Dispatched"; "Travel"; "In Progress"; "Completed" ] <= 6.
Proof.
  apply (table_is_forward_only
           [ "None"; "Scheduled"; "Dispatched"; "Travel"; "In Progress"; "Completed" ]).
  cbn. repeat split; vm_compute; tauto.
Defined.

(** *** When the block button shows *)

Theorem showBlockButton_iff_not_terminal (s : System) :
  showBlockButton s = true <-> ~ In (currentStatus s) terminal.
Proof.
  split; [apply showBlockButton_not_terminal|].
  intros H. unfold showBlockButton.
  assert (Hne : forall k, In k terminal -> String.eqb (currentStatus s) k = false).
  { intros k Hk. apply String.eqb_neq. intros Heq. apply H. rewrite Heq. exact Hk. }
  rewrite !Hne by (cbn; tauto). reflexivity.
Qed.

(** *** Statuses named like a member of [Object.prototype] *)

(** X18. For a status named like a member of [Object.prototype]
    ([constructor], [toString], ...) the lookup in [STATUS_CONFIG] finds the
    inherited member, the fallback to [None] is not taken, and
    [nextStatusOptions] and [canUpdateStatus] throw; the block button
    shows. *)
Theorem inherited_keys_throw (s : System) :
  In (currentStatus s) OBJECT_PROTOTYPE_KEYS ->
  statusConfig s = Some (Inherited (currentStatus s)) /\
  nextStatusOptions s = None /\
  canUpdateStatus s = None /\
  showBlockButton s = true.
Proof.
  intros Hin. unfold nextStatusOptions, canUpdateStatus, statusConfig, showBlockButton.
  cbn in Hin.
  repeat (destruct Hin as [<-|Hin]; [repeat split; vm_compute; reflexivity|]).
  destruct Hin.
Qed.

Lemma inherited_keys_throw_witness :
  nextStatusOptions (opened_on "08p000000000001" "toString") = None.
Proof.
  apply (inherited_keys_throw (opened_on "08p000000000001" "toString")).
  cbn. tauto.
Defined.

Lemma statusConfig_falls_back_witness :
  offered_next (opened_on "08p000000000001" "On Hold") = Some [ "Scheduled" ].
Proof.
  apply (statusConfig_falls_back (opened_on "08p000000000001" "On Hold")).
  - cbn. intros H. repeat (destruct H as [H|H]; [discriminate H|]). exact H.
  - cbn. intros H. repeat (destruct H as [H|H]; [discriminate H|]). exact H.
Defined.

(** *** What a next-status button looks like *)

(** X19. Every next-status button has the status as its label and value,
    the icon configured for that status, and the variant [success] exactly
    for [Completed]. *)
Theorem next_options_carry_configured_icons (s : System) (o : NextOption)
  (options : list NextOption) :
  nextStatusOptions s = Some options -> In o options ->
  label o = value o /\
  (exists c, STATUS_CONFIG !! value o = Some c /\ option_icon o = icon c) /\
  (variant o = "success" <-> value o = "Completed").
Proof.
  unfold nextStatusOptions, statusConfig, STATUS_CONFIG_at at 1.
  intros Hopt Hin.
  assert (Hrow : exists k c, STATUS_CONFIG !! k = Some c /\ options = map next_option (next c)).
  { destruct (STATUS_CONFIG !! currentStatus s) as [c|] eqn:Hc.
    - cbn in Hopt. injection Hopt as <-. eauto.
    - destruct (bool_decide _); cbn in Hopt; [discriminate|].
      change (STATUS_CONFIG_at "None") with
        (Some (OwnConfig {| next := [ "Scheduled" ]; color := "#706e6b";
                            icon := "utility:clock" |})) in Hopt.
      cbn in Hopt. injection Hopt as <-. exists "None". eexists. split; reflexivity. }
  destruct Hrow as [k [c [Hc ->]]].
  apply in_map_iff in Hin. destruct Hin as [st [<- Hst]].
  apply elem_of_list_to_map_2 in Hc.
  repeat (apply elem_of_cons in Hc; destruct Hc as [Hc|Hc];
          [injection Hc as -> ->; cbn [next In] in Hst;
           repeat (destruct Hst as [<-|Hst];
                   [split; [reflexivity|]; split;
                    [eexists; split; vm_compute; reflexivity
                    |vm_compute; split; intros H; first [reflexivity|discriminate H]]|]);
           destruct Hst|]).
  apply elem_of_nil in Hc. destruct Hc.
Qed.

Lemma next_options_carry_configured_icons_witness :
  exists c, STATUS_CONFIG !! "Travel" = Some c /\ option_icon (next_option "Travel") = icon c.
Proof.
  apply (next_options_carry_configured_icons
           (opened_on "08p000000000001" "Scheduled") (next_option "Travel")
           [ next_option "Dispatched"; next_option "Travel" ]).
  - reflexivity.
  - cbn. tauto.
Defined.

End StatusWorkflowMore.


(** ** Numbers *)

Section Numbers.

Lemma SFcompare_antisym (x y : SpecFloat.spec_float) :
  SpecFloat.SFcompare y x = option_map CompOpp (SpecFloat.SFcompare x y).
Proof.
  destruct x as [sx|sx| |sx mx ex], y as [sy|sy| |sy my ey]; cbn;
    try reflexivity;
    try (destruct sx; reflexivity); try (destruct sy; reflexivity);
    try (destruct sx, sy; reflexivity).
  destruct sx, sy; try reflexivity.
  - rewrite (Z.compare_antisym ex ey). destruct (ex ?= ey)%Z; cbn; try reflexivity.
    rewrite (Pos.compare_cont_antisym mx my Eq). cbn.
    destruct (Pos.compare_cont Eq my mx); reflexivity.
  - rewrite (Z.compare_antisym ex ey). destruct (ex ?= ey)%Z; cbn; try reflexivity.
    rewrite (Pos.compare_cont_antisym mx my Eq). cbn. reflexivity.
Qed.

Lemma SFcompare_refl (x : SpecFloat.spec_float) :
  SpecFloat.SFcompare x x = match x with SpecFloat.S754_nan => None | _ => Some Eq end.
Proof.
  destruct x as [s|s| |s m e]; cbn; try reflexivity; try (destruct s; reflexivity).
  destruct s; rewrite Z.compare_refl, Pos.compare_cont_refl; reflexivity.
Qed.

Lemma is_nan_spec (x : float) :
  PrimFloat.is_nan x = match Prim2SF x with SpecFloat.S754_nan => true | _ => false end.
Proof.
  unfold PrimFloat.is_nan. rewrite FloatAxioms.eqb_spec. unfold SpecFloat.SFeqb.
  rewrite SFcompare_refl. destruct (Prim2SF x); reflexivity.
Qed.

Lemma ltb_leb (x y : float) : PrimFloat.ltb x y = true -> PrimFloat.leb x y = true.
Proof.
  rewrite FloatAxioms.ltb_spec, FloatAxioms.leb_spec. unfold SpecFloat.SFltb, SpecFloat.SFleb.
  destruct (SpecFloat.SFcompare _ _) as [[| |]|]; intros H; first [reflexivity|discriminate H].
Qed.

Lemma not_ltb_leb (x y : float) :
  PrimFloat.is_nan x = false -> PrimFloat.is_nan y = false ->
  PrimFloat.ltb y x = false -> PrimFloat.leb x y = true.
Proof.
  rewrite !is_nan_spec, FloatAxioms.ltb_spec, FloatAxioms.leb_spec.
  unfold SpecFloat.SFltb, SpecFloat.SFleb.
  rewrite (SFcompare_antisym (Prim2SF x) (Prim2SF y)).
  destruct (Prim2SF x) as [sx|sx| |sx mx ex] eqn:Hx, (Prim2SF y) as [sy|sy| |sy my ey] eqn:Hy;
    intros Hnx Hny; try discriminate;
    destruct (SpecFloat.SFcompare _ _) as [[| |]|] eqn:Hc; cbn; intros H;
    first [reflexivity|discriminate H|idtac];
    cbn in Hc; try discriminate Hc;
    repeat match goal with s : bool |- _ => destruct s end; try discriminate Hc.
Qed.

Lemma leb_not_nan (x y : float) :
  PrimFloat.leb x y = true -> PrimFloat.is_nan x = false /\ PrimFloat.is_nan y = false.
Proof.
  rewrite !is_nan_spec, FloatAxioms.leb_spec. unfold SpecFloat.SFleb.
  destruct (Prim2SF x), (Prim2SF y); cbn; intros H; try discriminate H; split; reflexivity.
Qed.

Lemma ltb_not_nan (x y : float) :
  PrimFloat.ltb x y = true -> PrimFloat.is_nan x = false /\ PrimFloat.is_nan y = false.
Proof. intros H. apply leb_not_nan. apply ltb_leb. exact H. Qed.

(** A number clamped to a percentage is a percentage, or not a number when
    the input is not. *)
Lemma clamp_percentage_range (p : float) :
  let r := BuildingAssetMapViews.clamp_percentage p in
  (PrimFloat.is_nan p = true -> PrimFloat.is_nan r = true) /\
  (PrimFloat.is_nan p = false -> PrimFloat.leb 0 r = true /\ PrimFloat.leb r 100 = true).
Proof.
  cbn zeta. unfold BuildingAssetMapViews.clamp_percentage, Js.Math_min.
  change (PrimFloat.is_nan 100) with false. cbn [orb].
  destruct (PrimFloat.is_nan p) eqn:Hnan.
  - split; [intros _; reflexivity|discriminate].
  - split; [discriminate|]. intros _.
    destruct (PrimFloat.ltb 100 p) eqn:H1; [split; reflexivity|].
    assert (Hle : PrimFloat.leb p 100 = true) by (apply not_ltb_leb; [exact Hnan|reflexivity|exact H1]).
    assert (Hm : (if PrimFloat.ltb p 100 then p
                  else if PrimFloat.get_sign 100 then 100%float else p) = p).
    { destruct (PrimFloat.ltb p 100); reflexivity. }
    rewrite Hm. unfold Js.Math_max. change (PrimFloat.is_nan 0) with false. cbn [orb].
    rewrite Hnan.
    destruct (PrimFloat.ltb 0 p) eqn:H2.
    + split; [apply ltb_leb; exact H2|exact Hle].
    + destruct (PrimFloat.ltb p 0); [split; reflexivity|].
      change (PrimFloat.get_sign 0) with false. cbn iota. split; reflexivity.
Qed.

End Numbers.


(** ** Predictive maintenance *)

Section Predictive.

Import PredictiveMaintenance.

Lemma ge_70_ge_40 (v : float) : Js.ge v 70 = true -> Js.ge v 40 = true.
Proof.
  unfold Js.ge. rewrite !FloatAxioms.leb_spec.
  change (Prim2SF 70) with (SpecFloat.S754_finite false 4925812092436480 (-46)).
  change (Prim2SF 40) with (SpecFloat.S754_finite false 5629499534213120 (-47)).
  unfold SpecFloat.SFleb.
  destruct (Prim2SF v) as [s|s| |s m e]; cbn [SpecFloat.SFcompare];
    try (destruct s; intros H; first [reflexivity|discriminate H]);
    try (intros H; discriminate H).
  destruct s; [intros H; discriminate H|].
  destruct (-46 ?= e)%Z eqn:He; intros H.
  - apply Z.compare_eq in He. subst e. reflexivity.
  - assert (Hlt : (-47 ?= e)%Z = Lt).
    { apply (proj1 (Z.compare_lt_iff _ _)) in He. apply (proj2 (Z.compare_lt_iff _ _)). lia. }
    rewrite Hlt. reflexivity.
  - discriminate H.
Qed.

Lemma ge_40_truthy (v : float) :
  Js.ge v 40 = true -> (PrimFloat.is_nan v || PrimFloat.eqb v 0)%bool = false.
Proof.
  unfold Js.ge. intros H.
  destruct (leb_not_nan _ _ H) as [_ Hn]. rewrite Hn. cbn [orb].
  revert H. rewrite FloatAxioms.leb_spec, FloatAxioms.eqb_spec.
  change (Prim2SF 40) with (SpecFloat.S754_finite false 5629499534213120 (-47)).
  change (Prim2SF 0) with (SpecFloat.S754_zero false).
  unfold SpecFloat.SFleb, SpecFloat.SFeqb.
  destruct (Prim2SF v) as [s|s| |s m e]; cbn [SpecFloat.SFcompare];
    try (destruct s; intros H; first [reflexivity|discriminate H]);
    intros H; discriminate H.
Qed.

(** X20. The button that adds preventive work shows exactly when the
    probability bar is not in its low class and no plan has been created:
    the getter's threshold and the bar's thresholds agree, also for a
    missing, zero or not-a-number probability. *)
Theorem add_work_button_matches_bar (c : Component) :
  showAddWorkButton c = true <->
  failureProbabilityClass c <> "probability-bar low" /\ workPlanCreated c = false.
Proof.
  unfold showAddWorkButton, failureProbabilityClass.
  destruct (data c) as [d|]; cbn [fmap option_fmap option_map Js.number_or].
  - destruct (Js.ge (failureProbability d) 40) eqn:H40.
    + rewrite (ge_40_truthy _ H40), H40.
      destruct (workPlanCreated c); cbn [negb andb]; split.
      * discriminate.
      * intros [_ H]. discriminate H.
      * intros _. split; [|reflexivity].
        destruct (Js.ge (failureProbability d) 70); discriminate.
      * reflexivity.
    + cbn [andb]. split; [discriminate|]. intros [H _]. exfalso. apply H.
      destruct (PrimFloat.is_nan (failureProbability d) || PrimFloat.eqb (failureProbability d) 0)%bool;
        [reflexivity|].
      destruct (Js.ge (failureProbability d) 70) eqn:H70.
      * rewrite (ge_70_ge_40 _ H70) in H40. discriminate H40.
      * rewrite H40. reflexivity.
  - split; [discriminate|]. intros [H _]. exfalso. apply H. reflexivity.
Qed.

(** *** Creating the preventive work plan *)

Theorem create_work_plan_outcomes (c : Component) (workPlanId : string) (e : Js.JsError) :
  let ok := createWorkPlan (Js.Resolved workPlanId) c in
  let ko := createWorkPlan (Js.Rejected e) c in
  (Js.result_of ok = Js.Ok tt /\
   Js.events_of ok =
     [ Js.RemoteCall "createPreventiveWorkPlan";
       Js.ShowToastEvent "Preventive Work Plan Created"
         "A 7-step inspection work plan has been added to the selected work order."
         "success";
       Js.RemoteCall "refreshApex" ] /\
   Js.state_of ok =
     set_isCreating false
       (set_workPlanCreated true
          (set_createdWorkPlanId (Some workPlanId)
             (set_showWorkOrderModal false (set_isCreating true c))))) /\
  (Js.result_of ko = Js.Ok tt /\
   Js.events_of ko =
     [ Js.RemoteCall "createPreventiveWorkPlan";
       Js.ConsoleError "Error creating work plan:";
       Js.ShowToastEvent "Error"
         (Js.error_message e "Failed to create preventive work plan") "error" ] /\
   Js.state_of ko = set_isCreating false (set_showWorkOrderModal false (set_isCreating true c)) /\
   workPlanCreated (Js.state_of ko) = workPlanCreated c /\
   createdWorkPlanId (Js.state_of ko) = createdWorkPlanId c).
Proof.
  cbn zeta. unfold createWorkPlan. js_unfold. cbn. repeat split.
Qed.

(** *** The three ways of "Add Preventive Work" *)

Theorem add_preventive_work_branches (c : Component) (created : Js.Outcome string) :
  let r := handleAddPreventiveWork created c in
  match Js.truthy (data c ≫= upcomingWorkOrderId), workOrders c with
  | Some wo, _ => r = createWorkPlan created (set_selectedWorkOrderId (Some wo) c)
  | None, _ :: _ => r = (Js.Ok tt, set_showWorkOrderModal true c, [])
  | None, [] =>
      r = (Js.Ok tt, c,
           [ Js.ShowToastEvent "No Work Orders Available"
               "No upcoming work orders found at this location. Create a new work order first."
               "warning" ])
  end.
Proof.
  cbn zeta. unfold handleAddPreventiveWork. js_unfold.
  destruct (Js.truthy _) as [wo|].
  - cbn. destruct (createWorkPlan created (set_selectedWorkOrderId (Some wo) c)) as [[r s'] ev].
    reflexivity.
  - destruct (workOrders c); reflexivity.
Qed.

(** X21. Confirming without a selected work order does nothing, and neither
    the confirm handler nor the add handler issues the remote call more
    than once, whatever its outcome. *)
Theorem work_plan_is_requested_at_most_once (c : Component) (created : Js.Outcome string) :
  (Js.falsy (selectedWorkOrderId c) = true ->
   handleConfirmWorkOrder created c = (Js.Ok tt, c, [])) /\
  length (List.filter (Js.is_call "createPreventiveWorkPlan")
            (Js.events_of (handleConfirmWorkOrder created c))) <= 1 /\
  length (List.filter (Js.is_call "createPreventiveWorkPlan")
            (Js.events_of (handleAddPreventiveWork created c))) <= 1.
Proof.
  unfold handleConfirmWorkOrder, handleAddPreventiveWork, createWorkPlan, Js.falsy.
  js_unfold.
  repeat split.
  - destruct (Js.truthy (selectedWorkOrderId c)); [discriminate|reflexivity].
  - destruct (Js.truthy (selectedWorkOrderId c)); destruct created; cbn; lia.
  - destruct (Js.truthy _); [|destruct (workOrders c)]; destruct created; cbn; lia.
Qed.

Lemma work_plan_is_requested_at_most_once_witness :
  handleConfirmWorkOrder (Js.Resolved "0gq000000000001") (initial "02i000000000001") =
  (Js.Ok tt, initial "02i000000000001", []).
Proof.
  apply (work_plan_is_requested_at_most_once (initial "02i000000000001")
           (Js.Resolved "0gq000000000001")).
  reflexivity.
Defined.

(** *** Wire results *)

Theorem wired_data_outcomes (c : Component) (d : Data) (e : Js.JsError)
  (err : option Js.JsError) :
  wiredData {| wire_data := Some d; wire_error := err |} c =
    (Js.Ok tt, set_isLoading false (set_data (Some d) c), []) /\
  wiredData {| wire_data := None; wire_error := Some e |} c =
    (Js.Ok tt, set_isLoading false c, [ Js.ConsoleError "Error loading predictive data:" ]) /\
  wiredData {| wire_data := None; wire_error := None |} c = (Js.Ok tt, c, []) /\
  wiredWorkOrders {| wire_data := None; wire_error := Some e |} c = (Js.Ok tt, c, []).
Proof. repeat split. Qed.

End Predictive.


(** ** Building asset map: bars, selection, floors, layers, groups *)

Section AssetMapViews.

Import BuildingAssetMap BuildingAssetMapViews.

(** *** The gauge *)

Lemma percentage_clamped (a : Attribute) :
  percentage (processAttribute a) =
  clamp_percentage
    (PrimFloat.mul
       (PrimFloat.div (PrimFloat.sub (value a) (minThreshold a))
                      (PrimFloat.sub (maxThreshold a) (minThreshold a))) 100).
Proof.
  unfold processAttribute.
  destruct (Js.lt (value a) (minThreshold a)); [reflexivity|].
  destruct (Js.gt (value a) (maxThreshold a)); reflexivity.
Qed.

(** X22. The width of an attribute's bar is between 0 and 100 whenever the
    proportion of the value in its range is a number, and is not a number
    otherwise; the bar of the predictive maintenance component is computed
    the same way. *)
Theorem gauge_is_a_percentage (a : Attribute) (r : PredictiveMaintenance.Reading) :
  let raw :=
    PrimFloat.mul
      (PrimFloat.div (PrimFloat.sub (value a) (minThreshold a))
                     (PrimFloat.sub (maxThreshold a) (minThreshold a))) 100 in
  let w := percentage (processAttribute a) in
  (PrimFloat.is_nan raw = true -> PrimFloat.is_nan w = true) /\
  (PrimFloat.is_nan raw = false -> PrimFloat.leb 0 w = true /\ PrimFloat.leb w 100 = true) /\
  PredictiveMaintenance.getReadingBarWidth r =
    percentage (processAttribute (ThreeWay.as_attribute r)).
Proof.
  cbn zeta. rewrite !percentage_clamped.
  split; [apply clamp_percentage_range|]. split; [apply clamp_percentage_range|].
  reflexivity.
Qed.

(** The compressor of the CRAC unit: its range is a single point. *)
Lemma gauge_is_a_percentage_witness :
  PrimFloat.leb 0 (percentage (processAttribute
    (mkAttr "Compressor Status" 1 2 2 "active" "Health"))) = true.
Proof.
  apply (gauge_is_a_percentage (mkAttr "Compressor Status" 1 2 2 "active" "Health")
           ThreeWay.charge_cycles).
  reflexivity.
Defined.

(** *** Selecting an asset *)

Lemma findAssetById_in_sound (floors : list LoadedFloor) (assetId : string) (a : LoadedAsset) :
  findAssetById_in floors assetId = Some a ->
  id (source a) = assetId /\ exists f, In f floors /\ In a (loaded_assets f).
Proof.
  induction floors as [|f rest IH]; [discriminate|].
  cbn [findAssetById_in]. destruct (List.find _ (loaded_assets f)) as [b|] eqn:Hf.
  - intros H. injection H as <-. apply List.find_some in Hf. destruct Hf as [Hin Heq].
    split; [apply String.eqb_eq; exact Heq|]. exists f. split; [left; reflexivity|exact Hin].
  - intros H. destruct (IH H) as [Hid [g [Hg Ha]]]. split; [exact Hid|].
    exists g. split; [right; exact Hg|exact Ha].
Qed.

Lemma findAssetById_in_none (floors : list LoadedFloor) (assetId : string) :
  findAssetById_in floors assetId = None ->
  forall f a, In f floors -> In a (loaded_assets f) -> id (source a) <> assetId.
Proof.
  induction floors as [|f rest IH]; [intros _ g a []|].
  cbn [findAssetById_in]. destruct (List.find _ (loaded_assets f)) as [b|] eqn:Hf; [discriminate|].
  intros H g a [<-|Hg] Ha Heq.
  - pose proof (List.find_none _ _ Hf a Ha) as Hn. cbn in Hn.
    apply String.eqb_neq in Hn. contradiction.
  - exact (IH H g a Hg Ha Heq).
Qed.

(** X23. A click on the map, a marker selection and a click in the floor
    list select the same asset, one of the loaded assets with the id
    clicked, and open its detail; the floors are left as they are; when no
    loaded asset has that id, or the marker is the data center's or none,
    nothing changes. *)
Theorem selecting_an_asset (c : Component) (assetId : string) :
  handleMapAssetClick assetId c = handleAssetClick assetId c /\
  (assetId <> "" -> assetId <> "data-center" ->
   handleMarkerSelect (Some assetId) c = handleAssetClick assetId c) /\
  handleMarkerSelect (Some "data-center") c = c /\
  handleMarkerSelect None c = c /\
  match findAssetById c assetId with
  | Some a =>
      selectedAsset (handleAssetClick assetId c) = Some a /\
      showAssetDetail (handleAssetClick assetId c) = true /\
      assetsByFloor (handleAssetClick assetId c) = assetsByFloor c /\
      id (source a) = assetId /\
      In a (all_assets c)
  | None =>
      handleAssetClick assetId c = c /\
      forall a, In a (all_assets c) -> id (source a) <> assetId
  end.
Proof.
  split; [reflexivity|]. split; [|split; [|split]].
  - intros H1 H2. unfold handleMarkerSelect, handleAssetClick, Js.truthy.
    apply String.eqb_neq in H1. apply String.eqb_neq in H2. rewrite H1, H2. reflexivity.
  - reflexivity.
  - reflexivity.
  - unfold handleAssetClick, findAssetById.
    destruct (findAssetById_in (assetsByFloor c) assetId) as [a|] eqn:Hf.
    + destruct (findAssetById_in_sound _ _ _ Hf) as [Hid [f [Hfl Ha]]].
      repeat split; try assumption.
      unfold all_assets. apply in_flat_map. exists f. split; assumption.
    + split; [reflexivity|]. intros a Ha. unfold all_assets in Ha.
      apply in_flat_map in Ha. destruct Ha as [f [Hfl Ha]].
      exact (findAssetById_in_none _ _ Hf f a Hfl Ha).
Qed.

Lemma selecting_an_asset_witness :
  handleMarkerSelect (Some "haven-ups-001") (connectedCallback (initial None)) =
  handleAssetClick "haven-ups-001" (connectedCallback (initial None)).
Proof.
  apply (selecting_an_asset (connectedCallback (initial None)) "haven-ups-001");
    discriminate.
Defined.

(** *** Creating the inspection work plan *)



(** *** Floors *)

Lemma toggle_floor_twice (f : LoadedFloor) : toggle_floor (toggle_floor f) = f.
Proof.
  destruct f as [[fl lbl ex asts] la]. unfold toggle_floor. cbn.
  rewrite negb_involutive. reflexivity.
Qed.

Lemma set_assetsByFloor_same (c : Component) : set_assetsByFloor (assetsByFloor c) c = c.
Proof. destruct c. reflexivity. Qed.

Lemma floors_after_toggle (c : Component) (i j : nat) :
  assetsByFloor (handleFloorToggle (Some i) c) !! j =
  (fun f => if Nat.eqb j i then toggle_floor f else f) <$> assetsByFloor c !! j.
Proof. unfold handleFloorToggle. cbn. apply list_lookup_imap. Qed.

(** X25. Toggling a floor twice restores the component; an index that is
    not a number or is out of range changes nothing; a toggle flips
    [isExpanded] of that floor only, and keeps the number of floors and the
    assets. *)
Theorem floor_toggle_properties (c : Component) (i : nat) :
  handleFloorToggle (Some i) (handleFloorToggle (Some i) c) = c /\
  handleFloorToggle None c = c /\
  (length (assetsByFloor c) <= i -> handleFloorToggle (Some i) c = c) /\
  length (assetsByFloor (handleFloorToggle (Some i) c)) = length (assetsByFloor c) /\
  all_assets (handleFloorToggle (Some i) c) = all_assets c /\
  (forall f, assetsByFloor c !! i = Some f ->
     assetsByFloor (handleFloorToggle (Some i) c) !! i = Some (toggle_floor f)) /\
  (forall j, j <> i ->
     assetsByFloor (handleFloorToggle (Some i) c) !! j = assetsByFloor c !! j).
Proof.
  assert (Hset : forall l, (forall j, l !! j = assetsByFloor c !! j) ->
                           set_assetsByFloor l c = c).
  { intros l Hl. apply list_eq in Hl. rewrite Hl. apply set_assetsByFloor_same. }
  repeat split.
  - unfold handleFloorToggle at 1. cbn [assetsByFloor set_assetsByFloor].
    transitivity (set_assetsByFloor
                    (imap (fun idx f => if Nat.eqb idx i then toggle_floor f else f)
                       (assetsByFloor (handleFloorToggle (Some i) c))) c);
      [destruct c; reflexivity|].
    apply Hset. intros j. rewrite list_lookup_imap, floors_after_toggle.
    destruct (assetsByFloor c !! j) as [f|]; [|reflexivity]. cbn.
    destruct (Nat.eqb j i); [rewrite toggle_floor_twice|]; reflexivity.
  - unfold handleFloorToggle. apply Hset. intros j. rewrite list_lookup_imap.
    destruct (assetsByFloor c !! j); reflexivity.
  - intros Hlen. unfold handleFloorToggle. apply Hset. intros j. rewrite list_lookup_imap.
    destruct (assetsByFloor c !! j) as [f|] eqn:Hj; [|reflexivity]. cbn.
    apply lookup_lt_Some in Hj.
    destruct (Nat.eqb_spec j i); [lia|reflexivity].
  - unfold handleFloorToggle. cbn. apply length_imap.
  - unfold all_assets, handleFloorToggle. cbn [assetsByFloor set_assetsByFloor].
    generalize (assetsByFloor c). intros floors.
    assert (Hgen : forall k,
               flat_map loaded_assets
                 (imap (fun idx f => if Nat.eqb (k + idx) i then toggle_floor f else f) floors) =
               flat_map loaded_assets floors).
    { induction floors as [|f rest IH]; intros k; [reflexivity|].
      cbn [imap flat_map]. f_equal.
      - destruct (Nat.eqb (k + 0) i); reflexivity.
      - rewrite <- (IH (S k)). f_equal. apply imap_ext. intros j x _. cbn.
        replace (k + S j) with (S (k + j)) by lia. reflexivity. }
    exact (Hgen 0).
  - intros f Hf. rewrite floors_after_toggle, Hf. cbn. rewrite Nat.eqb_refl. reflexivity.
  - intros j Hj. rewrite floors_after_toggle.
    destruct (assetsByFloor c !! j); [|reflexivity]. cbn.
    destruct (Nat.eqb_spec j i); [contradiction|reflexivity].
Qed.

Lemma floor_toggle_properties_witness :
  handleFloorToggle (Some 9) (connectedCallback (initial None)) =
  connectedCallback (initial None).
Proof.
  apply (floor_toggle_properties (connectedCallback (initial None)) 9).
  cbn. lia.
Defined.

(** *** GIS layers *)

Lemma layer_ids_after_toggle (layerId : string) (checked : bool) (ls : list Layer) :
  map layer_id (handleLayerToggle layerId checked ls) = map layer_id ls.
Proof.
  unfold handleLayerToggle. rewrite map_map. apply map_ext. intros l.
  destruct (String.eqb (layer_id l) layerId); reflexivity.
Qed.

Lemma isLayerVisible_after_toggle (layerId : string) (checked : bool) (ls : list Layer)
  (k : string) :
  isLayerVisible (handleLayerToggle layerId checked ls) k =
  if (String.eqb k layerId && existsb (String.eqb k) (map layer_id ls))%bool
  then checked else isLayerVisible ls k.
Proof.
  unfold isLayerVisible, handleLayerToggle.
  induction ls as [|l rest IH]; cbn [map List.find existsb].
  - rewrite andb_false_r. reflexivity.
  - destruct (String.eqb_spec (layer_id l) layerId) as [Heq|Hne]; cbn [layer_id].
    + destruct (String.eqb_spec (layer_id l) k) as [Hk|Hk].
      * subst k. rewrite Heq, String.eqb_refl. cbn. reflexivity.
      * rewrite IH. assert (Hk' : String.eqb k (layer_id l) = false)
          by (apply String.eqb_neq; congruence).
        rewrite Hk'. cbn [orb]. reflexivity.
    + destruct (String.eqb_spec (layer_id l) k) as [Hk|Hk].
      * subst k. assert (Hn : String.eqb (layer_id l) layerId = false)
          by (apply String.eqb_neq; exact Hne).
        rewrite Hn. reflexivity.
      * rewrite IH. assert (Hk' : String.eqb k (layer_id l) = false)
          by (apply String.eqb_neq; congruence).
        rewrite Hk'. cbn [orb]. reflexivity.
Qed.

Lemma layer_ids_after_toggles (ts : list (string * bool)) (ls : list Layer) :
  map layer_id (toggles ts ls) = map layer_id ls.
Proof.
  revert ls. induction ts as [|[k b] ts IH]; intros ls; [reflexivity|].
  cbn [toggles fold_left]. fold (toggles ts (handleLayerToggle k b ls)).
  rewrite IH. apply layer_ids_after_toggle.
Qed.

Lemma isLayerVisible_unknown (ls : list Layer) (k : string) :
  ~ In k (map layer_id ls) -> isLayerVisible ls k = true.
Proof.
  unfold isLayerVisible. intros Hn.
  destruct (List.find _ ls) as [l|] eqn:Hf; [|reflexivity].
  apply List.find_some in Hf. destruct Hf as [Hin Heq]. apply String.eqb_eq in Heq.
  exfalso. apply Hn. rewrite <- Heq. apply in_map. exact Hin.
Qed.

(** X26. After any sequence of layer toggles the layers are still the four
    initial ones, so [showDrop] and [showSplice], which look for layers
    that do not exist, stay true and their classes are never hidden; a
    toggle sets the visibility of the layer named, when it is one of the
    four, and of no other. *)
Theorem layer_toggles (ts : list (string * bool)) (layerId k : string) (checked : bool) :
  let ls := toggles ts GIS_LAYERS in
  map layer_id ls = [ "backbone"; "distribution"; "zones"; "assets" ] /\
  showDrop ls = true /\ showSplice ls = true /\
  dropClass ls = "layer-drop" /\ spliceClass ls = "layer-splice" /\
  isLayerVisible (handleLayerToggle layerId checked ls) k =
    (if (String.eqb k layerId &&
         existsb (String.eqb k) [ "backbone"; "distribution"; "zones"; "assets" ])%bool
     then checked else isLayerVisible ls k).
Proof.
  cbn zeta.
  assert (Hids : map layer_id (toggles ts GIS_LAYERS) =
                 [ "backbone"; "distribution"; "zones"; "assets" ])
    by (rewrite layer_ids_after_toggles; reflexivity).
  assert (Hdrop : showDrop (toggles ts GIS_LAYERS) = true).
  { apply isLayerVisible_unknown. rewrite Hids. cbn. intros H.
    repeat (destruct H as [H|H]; [discriminate H|]). exact H. }
  assert (Hsplice : showSplice (toggles ts GIS_LAYERS) = true).
  { apply isLayerVisible_unknown. rewrite Hids. cbn. intros H.
    repeat (destruct H as [H|H]; [discriminate H|]). exact H. }
  split; [exact Hids|]. split; [exact Hdrop|]. split; [exact Hsplice|].
  split; [unfold dropClass; rewrite Hdrop; reflexivity|].
  split; [unfold spliceClass; rewrite Hsplice; reflexivity|].
  rewrite isLayerVisible_after_toggle, Hids. reflexivity.
Qed.

End AssetMapViews.


(** *** Attributes grouped by category *)

Section Grouping.

Import BuildingAssetMap BuildingAssetMapViews.

Lemma group_of_snoc_same (seen : list ProcessedAttribute) (a : ProcessedAttribute) :
  group_of (category_of a) (seen ++ [ a ]) =
  Some {| group_name := category_of a;
          group_attributes :=
            List.filter (fun b => String.eqb (category_of b) (category_of a)) seen ++ [ a ];
          hasWarning :=
            (existsb abnormal
               (List.filter (fun b => String.eqb (category_of b) (category_of a)) seen)
             || abnormal a)%bool |}.
Proof.
  unfold group_of. rewrite List.filter_app. cbn [List.filter]. rewrite String.eqb_refl.
  destruct (List.filter _ seen) as [|b bs]; cbn [app].
  - cbn. rewrite orb_false_r. reflexivity.
  - f_equal. f_equal. cbn [existsb]. rewrite existsb_app. cbn [existsb].
    rewrite orb_false_r, orb_assoc. reflexivity.
Qed.

Lemma group_of_snoc_other (seen : list ProcessedAttribute) (a : ProcessedAttribute)
  (k : string) :
  category_of a <> k -> group_of k (seen ++ [ a ]) = group_of k seen.
Proof.
  intros Hne. unfold group_of. rewrite List.filter_app. cbn [List.filter].
  apply String.eqb_neq in Hne. rewrite Hne, app_nil_r. reflexivity.
Qed.

Lemma group_step_plain (m : gmap string Group) (seen : list ProcessedAttribute)
  (a : ProcessedAttribute) :
  (forall k, m !! k = group_of k seen) -> plain a ->
  exists m', group_step (Some m) a = Some m' /\ forall k, m' !! k = group_of k (seen ++ [ a ]).
Proof.
  intros Hm Ha. unfold group_step. cbn [mbind option_bind].
  rewrite (Hm (category_of a)).
  unfold group_of at 1.
  destruct (List.filter (fun b => String.eqb (category_of b) (category_of a)) seen)
    as [|b bs] eqn:Hf.
  - rewrite bool_decide_eq_false_2 by exact Ha.
    eexists. split; [reflexivity|]. intros k.
    destruct (String.eqb_spec (category_of a) k) as [<-|Hne].
    + rewrite lookup_insert_eq, group_of_snoc_same, Hf. cbn. reflexivity.
    + rewrite lookup_insert_ne by exact Hne. rewrite group_of_snoc_other by exact Hne.
      apply Hm.
  - eexists. split; [reflexivity|]. intros k.
    destruct (String.eqb_spec (category_of a) k) as [<-|Hne].
    + rewrite lookup_insert_eq, group_of_snoc_same, Hf. cbn [group_name group_attributes
        hasWarning]. reflexivity.
    + rewrite lookup_insert_ne by exact Hne. rewrite group_of_snoc_other by exact Hne.
      apply Hm.
Qed.

Lemma group_step_inherited (m : gmap string Group) (seen : list ProcessedAttribute)
  (a : ProcessedAttribute) :
  (forall k, m !! k = group_of k seen) -> Forall plain seen -> ~ plain a ->
  group_step (Some m) a = None.
Proof.
  intros Hm Hseen Ha. unfold group_step. cbn [mbind option_bind].
  rewrite (Hm (category_of a)). unfold group_of.
  assert (Hf : List.filter (fun b => String.eqb (category_of b) (category_of a)) seen = []).
  { clear Hm. induction Hseen as [|b bs Hb Hbs IH]; [reflexivity|]. cbn [List.filter].
    destruct (String.eqb_spec (category_of b) (category_of a)) as [Heq|Hne]; [|exact IH].
    exfalso. apply Ha. unfold plain in *. rewrite <- Heq. exact Hb. }
  rewrite Hf. rewrite bool_decide_eq_true_2; [reflexivity|].
  unfold plain in Ha. destruct (decide (category_of a ∈ SaStatusUpdate.OBJECT_PROTOTYPE_KEYS));
    [assumption|contradiction].
Qed.

Lemma fold_group_step_None (attrs : list ProcessedAttribute) :
  fold_left group_step attrs None = None.
Proof. induction attrs as [|a rest IH]; [reflexivity|exact IH]. Qed.

Lemma grouped_from (attrs seen : list ProcessedAttribute) (m : gmap string Group) :
  (forall k, m !! k = group_of k seen) -> Forall plain seen ->
  (Forall plain attrs ->
   exists m', fold_left group_step attrs (Some m) = Some m' /\
              forall k, m' !! k = group_of k (seen ++ attrs)) /\
  (~ Forall plain attrs -> fold_left group_step attrs (Some m) = None).
Proof.
  revert seen m. induction attrs as [|a rest IH]; intros seen m Hm Hseen.
  - split.
    + intros _. exists m. split; [reflexivity|]. intros k. rewrite app_nil_r. apply Hm.
    + intros H. exfalso. apply H. constructor.
  - cbn [fold_left].
    destruct (decide (category_of a ∈ SaStatusUpdate.OBJECT_PROTOTYPE_KEYS)) as [Hbad|Hok].
    + assert (Hna : ~ plain a) by (intros H; exact (H Hbad)).
      rewrite (group_step_inherited m seen a Hm Hseen Hna).
      split.
      * intros H. apply Forall_cons in H. destruct H as [H _]. contradiction.
      * intros _. apply fold_group_step_None.
    + destruct (group_step_plain m seen a Hm Hok) as [m' [Hstep Hm']].
      rewrite Hstep.
      assert (Hseen' : Forall plain (seen ++ [ a ])).
      { apply Forall_app. split; [exact Hseen|]. constructor; [exact Hok|constructor]. }
      destruct (IH (seen ++ [ a ]) m' Hm' Hseen') as [IH1 IH2].
      split.
      * intros H. apply Forall_cons in H. destruct H as [_ H].
        destruct (IH1 H) as [m'' [Hf Hk]]. exists m''. split; [exact Hf|].
        intros k. rewrite Hk, <- app_assoc. reflexivity.
      * intros H. apply IH2. intros Hrest. apply H. constructor; assumption.
Qed.

(** X27. [groupedAttributes] puts every attribute in the group of its
    category, in the order of the attributes, and a group has a warning
    exactly when one of its attributes is not normal; it throws when a
    category is named like a member of [Object.prototype]. *)
Theorem grouped_by_category (attrs : list ProcessedAttribute) :
  (Forall plain attrs ->
   exists m, grouped attrs = Some m /\ forall k, m !! k = group_of k attrs) /\
  (~ Forall plain attrs -> grouped attrs = None).
Proof.
  unfold grouped.
  assert (H0 : forall k, (∅ : gmap string Group) !! k = group_of k []).
  { intros k. rewrite lookup_empty. reflexivity. }
  destruct (grouped_from attrs [] ∅ H0 (List.Forall_nil _)) as [H1 H2].
  split; assumption.
Qed.

Lemma grouped_by_category_witness :
  exists m,
    grouped (map processAttribute
               [ mkAttr "Load" 62 0 80 "%" "Capacity";
                 mkAttr "Battery Health" 68 70 100 "%" "Health";
                 mkAttr "Charge Cycles" 847 0 850 "cycles" "Health" ]) = Some m /\
    forall k,
      m !! k =
      group_of k (map processAttribute
                    [ mkAttr "Load" 62 0 80 "%" "Capacity";
                      mkAttr "Battery Health" 68 70 100 "%" "Health";
                      mkAttr "Charge Cycles" 847 0 850 "cycles" "Health" ]).
Proof.
  apply (grouped_by_category
           (map processAttribute
              [ mkAttr "Load" 62 0 80 "%" "Capacity";
                mkAttr "Battery Health" 68 70 100 "%" "Health";
                mkAttr "Charge Cycles" 847 0 850 "cycles" "Health" ])).
  repeat constructor; unfold plain; intros H; apply list_elem_of_In in H; vm_compute in H;
    repeat (destruct H as [H|H]; [discriminate H|]); exact H.
Defined.

End Grouping.


(** ** Order progress *)

Section OrderProgress.

Import OrderProgressMobile.

(** X28. Clicking a stage twice restores the expanded set; a click changes
    the expansion of that stage only; expanding all expands every stage,
    and collapsing all leaves exactly the current stage expanded, which is
    how the component starts. *)
Theorem stage_expansion (expandedStages : gset Z) (n : Z) :
  handleStageClick n (handleStageClick n expandedStages) = expandedStages /\
  (n ∈ handleStageClick n expandedStages <-> n ∉ expandedStages) /\
  (forall m, m <> n -> m ∈ handleStageClick n expandedStages <-> m ∈ expandedStages) /\
  Forall (fun v => isExpanded v = true) (stages (handleExpandAll expandedStages)) /\
  Forall (fun v => isExpanded v = isCurrent v) (stages (handleCollapseAll expandedStages)) /\
  stages initial_expandedStages = stages (handleCollapseAll expandedStages).
Proof.
  split; [|split; [|split; [|split; [|split]]]].
  - unfold handleStageClick.
    destruct (bool_decide (n ∈ expandedStages)) eqn:Hin.
    + apply bool_decide_eq_true_1 in Hin.
      rewrite bool_decide_eq_false_2 by set_solver.
      apply set_eq. intros x. destruct (decide (x = n)); set_solver.
    + apply bool_decide_eq_false_1 in Hin.
      rewrite bool_decide_eq_true_2 by set_solver.
      apply set_eq. intros x. set_solver.
  - unfold handleStageClick. destruct (bool_decide (n ∈ expandedStages)) eqn:Hin.
    + apply bool_decide_eq_true_1 in Hin. set_solver.
    + apply bool_decide_eq_false_1 in Hin. set_solver.
  - intros m Hm. unfold handleStageClick. destruct (bool_decide (n ∈ expandedStages)); set_solver.
  - unfold stages, handleExpandAll. repeat constructor.
  - unfold stages, handleCollapseAll. repeat constructor.
  - reflexivity.
Qed.

Theorem work_order_result_outcomes (c : Component) (result : GraphQLResult) :
  let r := handleWorkOrderResult result c in
  Js.result_of r = Js.Ok tt /\
  isLoading (Js.state_of r) = false /\
  Js.events_of r =
    match gql_errors result with
    | Some _ => [ Js.ConsoleError "GraphQL errors:" ]
    | None => []
    end /\
  _workOrderData (Js.state_of r) =
    match gql_data result with
    | Some (node :: _) => Some node
    | _ => _workOrderData c
    end.
Proof.
  cbn zeta. unfold handleWorkOrderResult. js_unfold.
  destruct result as [[[|node rest]|] [errs|]]; cbn; repeat split.
Qed.

End OrderProgress.

(** ** Which failures reach the user *)

Section Failures.



End Failures.
